(** * openai-image-mcp: the [generate_image] tool handler

    A shallow embedding of the two versions of the MCP server found in the
    repository:

    - [src/src/index.ts]: the URL-only server (module [UrlOnly]);
    - [src/unnamed/part_001]: the server with inline [b64_json] results and
      an optional [image_path] (module [Inline]).

    Both handlers are [async (request: any) => ...] closures.  They are
    embedded as programs of a small free monad [Prog] whose two effects are
    the calls that leave the process: [axios.post] and [fs.writeFile].
    The one object the handlers share between calls, [defaultConfig], lives
    in a heap.  [try]/[catch] is a combinator on such programs, and [run]
    interprets a program against a heap, a file system and a downstream
    service. *)

From Stdlib Require Import ZArith String Ascii List Strings.Byte Lia Bool.
From stdpp Require Import gmap strings.

Import ListNotations.
Local Open Scope string_scope.
Local Open Scope Z_scope.

(** ** JavaScript values that reach the handler

    The request is delivered by the protocol transport, the downstream
    answer by axios: both are results of [JSON.parse] (or [undefined] for
    an absent property, or a raw string).  Such a value is a tree; it holds
    no function, no symbol and no cycle. *)
Module Js.

(** A [number] as [JSON.parse] delivers it: an IEEE-754 double that is a
    signed zero, a finite non-zero value [(-1)^negative * mantissa *
    2^exponent], or (for a literal that overflows) an infinity.  JSON has no
    literal for NaN, so no NaN arrives. *)
Inductive JsNumber : Type :=
  | NZero (negative : bool)
  | NFinite (negative : bool) (mantissa : positive) (exponent : Z)
  | NInfinity (negative : bool).

#[local] Unset Elimination Schemes.
Inductive JsVal : Type :=
  | JUndefined
  | JNull
  | JBool (b : bool)
  | JNum (x : JsNumber)
  | JStr (s : string)
  | JArr (elements : list JsVal)
  | JObj (props : list (string * JsVal)).
#[local] Set Elimination Schemes.

(** An object is its list of own properties in insertion order. *)
Definition JsObj : Type := list (string * JsVal).

(** An integer literal such as [1024]. *)
Definition num_of_Z (z : Z) : JsNumber :=
  match z with
  | Z0 => NZero false
  | Zpos p => NFinite false p 0
  | Zneg p => NFinite true p 0
  end.

Definition JInt (z : Z) : JsVal := JNum (num_of_Z z).

(** [x === 0] on numbers: true of both zeros. *)
Definition num_is_zero (x : JsNumber) : bool :=
  match x with
  | NZero _ => true
  | _ => false
  end.

(** A finite number as [numerator * 2^exponent]. *)
Definition dyadic (x : JsNumber) : Z * Z :=
  match x with
  | NZero _ => (0, 0)
  | NFinite false m e => (Zpos m, e)
  | NFinite true m e => (Zneg m, e)
  | NInfinity _ => (0, 0)
  end.

(** [a <= b] on numbers. *)
Definition num_leb (a b : JsNumber) : bool :=
  match a, b with
  | NInfinity true, _ => true
  | _, NInfinity false => true
  | NInfinity false, _ => false
  | _, NInfinity true => false
  | _, _ =>
      let '(n1, e1) := dyadic a in
      let '(n2, e2) := dyadic b in
      let e := Z.min e1 e2 in
      n1 * 2 ^ (e1 - e) <=? n2 * 2 ^ (e2 - e)
  end.

(** ToBoolean.  Of the values above the falsy ones are [undefined], [null],
    [false], the two zeros and the empty string. *)
Definition truthy (v : JsVal) : bool :=
  match v with
  | JUndefined | JNull => false
  | JBool b => b
  | JNum x => negb (num_is_zero x)
  | JStr s => negb (String.eqb s EmptyString)
  | JArr _ | JObj _ => true
  end.

(** [a && b] and [a || b] return one of their operands. *)
Definition js_and (a b : JsVal) : JsVal := if truthy a then b else a.
Definition js_or (a b : JsVal) : JsVal := if truthy a then a else b.

(** [typeof v]. *)
Definition typeof (v : JsVal) : string :=
  match v with
  | JUndefined => "undefined"
  | JNull => "object"
  | JBool _ => "boolean"
  | JNum _ => "number"
  | JStr _ => "string"
  | JArr _ | JObj _ => "object"
  end.

(** *** Objects *)

Fixpoint obj_get (k : string) (o : JsObj) : option JsVal :=
  match o with
  | [] => None
  | (k', v) :: rest => if String.eqb k k' then Some v else obj_get k rest
  end.

(** [o[k] = v] while an object literal is built: an existing property keeps
    its place and takes the value, a new one is added at the end. *)
Fixpoint obj_set (k : string) (v : JsVal) (o : JsObj) : JsObj :=
  match o with
  | [] => [(k, v)]
  | (k', v') :: rest =>
      if String.eqb k k' then (k, v) :: rest else (k', v') :: obj_set k v rest
  end.

(** Copy the own properties of [src] onto [target], in order. *)
Definition obj_assign (target src : JsObj) : JsObj :=
  fold_left (fun o kv => obj_set (fst kv) (snd kv) o) src target.

(** [{...target, ...v}].  Spreading a primitive without own enumerable
    properties ([undefined], [null], a boolean, a number, the empty string)
    adds nothing.  Every operand the handlers spread is either an object or
    the falsy left operand of an [&&]; see [js_and_spread]. *)
Definition spread (target : JsObj) (v : JsVal) : JsObj :=
  match v with
  | JObj props => obj_assign target props
  | _ => target
  end.

(** [k in v] for an object [v] and a key that no prototype defines. *)
Definition has_property (k : string) (v : JsVal) : bool :=
  match v with
  | JObj props => match obj_get k props with Some _ => true | None => false end
  | _ => false
  end.

(** [v.k] for a [v] that is neither [undefined] nor [null] and a key that no
    prototype defines ([data], [url], [b64_json], [message], [prompt],
    [model], ...).  Arrays own only indices and [length]; a primitive owns
    nothing by such a name. *)
Definition get (v : JsVal) (k : string) : JsVal :=
  match v with
  | JObj props => match obj_get k props with Some x => x | None => JUndefined end
  | _ => JUndefined
  end.

Definition nullish (v : JsVal) : bool :=
  match v with
  | JUndefined | JNull => true
  | _ => false
  end.

(** [v?.k]. *)
Definition get_opt (v : JsVal) (k : string) : JsVal :=
  if nullish v then JUndefined else get v k.

(** [v[0]] for a [v] that is neither [undefined] nor [null]. *)
Definition get_index0 (v : JsVal) : JsVal :=
  match v with
  | JArr (x :: _) => x
  | JStr (String c _) => JStr (String c EmptyString)
  | JObj props => match obj_get "0" props with Some x => x | None => JUndefined end
  | _ => JUndefined
  end.

(** [v?.[0]]. *)
Definition get_index0_opt (v : JsVal) : JsVal :=
  if nullish v then JUndefined else get_index0 v.

(** *** What the platform supplies

    Library functions the handlers call and whose results they only pass
    on.  They are left open; every theorem holds for each platform. *)
Class Platform : Type := {
  (** [String(x)] for a number [x]. *)
  Number_toString : JsNumber -> string;
  (** [JSON.stringify(v, null, 2)]. *)
  JSON_stringify : JsVal -> string;
  (** [path.resolve(p)] for a string [p]. *)
  path_resolve : string -> string;
  (** Message of the [TypeError] of [path.resolve(v)] for a [v] that is not
      a string. *)
  path_resolve_invalid : JsVal -> string;
  (** [Buffer.from(v, 'base64')] for a truthy [v] that is not a string: the
      message of the [TypeError], or the bytes. *)
  Buffer_from_other : JsVal -> string + list byte
}.

(** ToString, as a template literal applies it; [None] is the [TypeError]
    "Cannot convert object to primitive value".  A parsed object has no
    callable property, so an own [toString] hides the inherited one and the
    conversion fails; without it the inherited one answers
    "[object Object]".  An array is joined with commas, [undefined] and
    [null] elements giving the empty string. *)
Fixpoint ToString `{Platform} (v : JsVal) : option string :=
  match v with
  | JUndefined => Some "undefined"
  | JNull => Some "null"
  | JBool true => Some "true"
  | JBool false => Some "false"
  | JNum x => Some (Number_toString x)
  | JStr s => Some s
  | JArr xs =>
      let fix join (l : list JsVal) : option string :=
        match l with
        | [] => Some EmptyString
        | x :: rest =>
            let sx :=
              match x with
              | JUndefined | JNull => Some EmptyString
              | _ => ToString x
              end in
            match rest with
            | [] => sx
            | _ :: _ =>
                match sx, join rest with
                | Some a, Some b => Some (a ++ "," ++ b)
                | _, _ => None
                end
            end
        end in
      join xs
  | JObj props =>
      match obj_get "toString" props with
      | Some _ => None
      | None => Some "[object Object]"
      end
  end.

End Js.

(** ** Base64, as [Buffer] implements it

    [Buffer.from(s, 'base64')] and its inverse [buf.toString('base64')] are
    platform code.  The decoder follows Node: it accepts the standard and
    the URL-safe alphabet, skips every other character, and stops at the
    first [=]. *)
Module Base64.

(** Six bits, most significant first. *)
Definition sextet : Type := bool * bool * bool * bool * bool * bool.

Definition alphabet : string :=
  "ABCDEFGHIJKLMNOPQRSTUVWXYZabcdefghijklmnopqrstuvwxyz0123456789+/".



Definition sextet_of_index (n : nat) : sextet :=
  (Nat.testbit n 5, Nat.testbit n 4, Nat.testbit n 3,
   Nat.testbit n 2, Nat.testbit n 1, Nat.testbit n 0).


Fixpoint index_of (c : ascii) (s : string) (i : nat) : option nat :=
  match s with
  | EmptyString => None
  | String c' rest => if Ascii.eqb c c' then Some i else index_of c rest (S i)
  end.

Definition char_sextet (c : ascii) : option sextet :=
  if Ascii.eqb c "-"%char then Some (sextet_of_index 62)
  else if Ascii.eqb c "_"%char then Some (sextet_of_index 63)
  else option_map sextet_of_index (index_of c alphabet 0).


Definition join4 (s1 s2 s3 s4 : sextet) : byte * byte * byte :=
  let '(a7, a6, a5, a4, a3, a2) := s1 in
  let '(a1, a0, b7, b6, b5, b4) := s2 in
  let '(b3, b2, b1, b0, c7, c6) := s3 in
  let '(c5, c4, c3, c2, c1, c0) := s4 in
  (Byte.of_bits (a0, (a1, (a2, (a3, (a4, (a5, (a6, a7))))))),
   Byte.of_bits (b0, (b1, (b2, (b3, (b4, (b5, (b6, b7))))))),
   Byte.of_bits (c0, (c1, (c2, (c3, (c4, (c5, (c6, c7)))))))).

Definition pad : ascii := "="%char.


(** The sextets of the legal characters before the first [=]. *)
Fixpoint sextets (s : string) : list sextet :=
  match s with
  | EmptyString => []
  | String c rest =>
      if Ascii.eqb c pad then []
      else match char_sextet c with
           | Some x => x :: sextets rest
           | None => sextets rest
           end
  end.

Definition zero6 : sextet := (false, false, false, false, false, false).

Fixpoint bytes_of_sextets (l : list sextet) : list byte :=
  match l with
  | s1 :: s2 :: s3 :: s4 :: rest =>
      let '(a, b, c) := join4 s1 s2 s3 s4 in a :: b :: c :: bytes_of_sextets rest
  | [s1; s2; s3] => let '(a, b, _) := join4 s1 s2 s3 zero6 in [a; b]
  | [s1; s2] => let '(a, _, _) := join4 s1 s2 zero6 zero6 in [a]
  | _ => []
  end.

(** [Buffer.from(s, 'base64')]. *)
Definition decode (s : string) : list byte := bytes_of_sextets (sextets s).

End Base64.

(** ** Programs with effects *)
Module Effects.
Import Js.

(** The members of the SDK's [ErrorCode] the handlers use. *)
Inductive ErrorCode : Type :=
  | MethodNotFound
  | InvalidParams
  | InternalError.

(** What a handler can throw or a promise reject with.  All are [Error]
    instances. *)
Inductive Exn : Type :=
  (** [new McpError(code, message)]. *)
  | McpError (code : ErrorCode) (message : string)
  (** An error [axios.isAxiosError] accepts: its [message] and, when the
      service answered, [error.response.data]. *)
  | AxiosError (message : string) (response_data : option JsVal)
  (** Any other [Error]: a [TypeError], a system error. *)
  | OtherError (message : string).

Definition isAxiosError (e : Exn) : bool :=
  match e with
  | AxiosError _ _ => true
  | _ => false
  end.

(** [error.message]; for an [McpError], the message it was built with. *)
Definition exn_message (e : Exn) : string :=
  match e with
  | McpError _ m => m
  | AxiosError m _ => m
  | OtherError m => m
  end.

(** Objects that are shared by reference live in a heap. *)
Definition loc : Type := nat.

Definition Headers : Type := list (string * string).

(** A program is a tree of the calls it makes.  [ReadObject] enumerates the
    own properties of a heap object (what a spread does), [NewObject]
    evaluates an object literal, [AxiosPost] awaits [axios.post(url, body,
    {headers})] and receives the rejection or [response.data], [FsWriteFile]
    awaits [fs.writeFile(path, data)] and receives the message of the
    rejection, if any. *)
Inductive Prog (A : Type) : Type :=
  | Ret (a : A)
  | Throw (e : Exn)
  | ReadObject (l : loc) (k : JsObj -> Prog A)
  | NewObject (o : JsObj) (k : loc -> Prog A)
  | AxiosPost (url : string) (body : loc) (headers : Headers)
      (k : Exn + JsVal -> Prog A)
  | FsWriteFile (path : string) (data : list byte)
      (k : option string -> Prog A).

Arguments Ret {A} a.
Arguments Throw {A} e.
Arguments ReadObject {A} l k.
Arguments NewObject {A} o k.
Arguments AxiosPost {A} url body headers k.
Arguments FsWriteFile {A} path data k.

Fixpoint bind {A B : Type} (m : Prog A) (f : A -> Prog B) : Prog B :=
  match m with
  | Ret a => f a
  | Throw e => Throw e
  | ReadObject l k => ReadObject l (fun o => bind (k o) f)
  | NewObject o k => NewObject o (fun l => bind (k l) f)
  | AxiosPost u b h k => AxiosPost u b h (fun r => bind (k r) f)
  | FsWriteFile p d k => FsWriteFile p d (fun r => bind (k r) f)
  end.

(** [try { m } catch (error) { handler error }]. *)
Fixpoint try_catch {A : Type} (m : Prog A) (handler : Exn -> Prog A) : Prog A :=
  match m with
  | Ret a => Ret a
  | Throw e => handler e
  | ReadObject l k => ReadObject l (fun o => try_catch (k o) handler)
  | NewObject o k => NewObject o (fun l => try_catch (k l) handler)
  | AxiosPost u b h k => AxiosPost u b h (fun r => try_catch (k r) handler)
  | FsWriteFile p d k => FsWriteFile p d (fun r => try_catch (k r) handler)
  end.

Declare Scope prog_scope.
Delimit Scope prog_scope with prog.
Notation "'let!' x ':=' m 'in' k" := (bind m (fun x => k))
  (at level 10, x name, m at level 100, k at level 200) : prog_scope.

(** [await axios.post(...)]: a rejection is thrown. *)
Definition post (url : string) (body : loc) (headers : Headers) : Prog JsVal :=
  AxiosPost url body headers
    (fun r => match r with inl e => Throw e | inr data => Ret data end).

(** [await fs.writeFile(...)]. *)
Definition writeFile (path : string) (data : list byte) : Prog unit :=
  FsWriteFile path data
    (fun r => match r with Some m => Throw (OtherError m) | None => Ret tt end).

Definition readObject (l : loc) : Prog JsObj := ReadObject l Ret.
Definition newObject (o : JsObj) : Prog loc := NewObject o Ret.

(** *** Running a program *)

Inductive Event : Type :=
  | EvPost (url : string) (body : JsObj) (headers : Headers)
  | EvWrite (path : string) (data : list byte).

(** The world outside the process for the time of one invocation: the
    answer of the service to a request, what the HTTP client does to the body
    object it was handed, and which writes fail.  A write that fails has the
    message of its error and what it leaves behind: [None] when the file
    could not be opened and is as it was, [Some k] when the failure came
    after the file was opened, which truncates it, and [k] bytes of the data
    had been written to it. *)
Record Env : Type := {
  downstream : string -> JsObj -> Headers -> Exn + JsVal;
  client_touch : JsObj -> JsObj;
  write_fault : string -> list byte -> option (string * option nat)
}.

Record State : Type := {
  heap : gmap loc JsObj;
  files : gmap string (list byte)
}.

Inductive Outcome (A : Type) : Type :=
  | Returned (a : A)
  | Threw (e : Exn).

Arguments Returned {A} a.
Arguments Threw {A} e.

Definition heap_read (st : State) (l : loc) : JsObj :=
  match heap st !! l with
  | Some o => o
  | None => []
  end.

(** The files after a write of [data] to [path] that failed. *)
Definition after_failed_write (path : string) (data : list byte)
    (residue : option nat) (st : State) : State :=
  match residue with
  | Some k => {| heap := heap st; files := <[path := take k data]> (files st) |}
  | None => st
  end.

Fixpoint run {A : Type} (env : Env) (m : Prog A) (st : State)
  : Outcome A * list Event * State :=
  match m with
  | Ret a => (Returned a, [], st)
  | Throw e => (Threw e, [], st)
  | ReadObject l k => run env (k (heap_read st l)) st
  | NewObject o k =>
      let l := fresh (dom (heap st)) in
      run env (k l) {| heap := <[l := o]> (heap st); files := files st |}
  | AxiosPost u b h k =>
      let body := heap_read st b in
      let st' := {| heap := <[b := client_touch env body]> (heap st);
                    files := files st |} in
      let '(out, evs, st'') := run env (k (downstream env u body h)) st' in
      (out, EvPost u body h :: evs, st'')
  | FsWriteFile p d k =>
      match write_fault env p d with
      | Some (msg, residue) =>
          let '(out, evs, st') :=
            run env (k (Some msg)) (after_failed_write p d residue st) in
          (out, evs, st')
      | None =>
          let st' := {| heap := heap st; files := <[p := d]> (files st) |} in
          let '(out, evs, st'') := run env (k None) st' in
          (out, EvWrite p d :: evs, st'')
      end
  end.

Definition outcome_of {A} (r : Outcome A * list Event * State) : Outcome A :=
  fst (fst r).
Definition events_of {A} (r : Outcome A * list Event * State) : list Event :=
  snd (fst r).
Definition state_of {A} (r : Outcome A * list Event * State) : State := snd r.

(** The request bodies sent, in order. *)
Definition posted_bodies (evs : list Event) : list JsObj :=
  flat_map (fun e => match e with EvPost _ b _ => [b] | EvWrite _ _ => [] end) evs.

(** The requests sent, in order: address, body and headers. *)
Definition requests_sent (evs : list Event) : list (string * JsObj * Headers) :=
  flat_map (fun e => match e with EvPost u b h => [(u, b, h)] | EvWrite _ _ => [] end) evs.

(** The files written in full, in order. *)
Definition written (evs : list Event) : list (string * list byte) :=
  flat_map (fun e => match e with EvWrite p d => [(p, d)] | EvPost _ _ _ => [] end) evs.

End Effects.

(** ** What both servers share *)
Module Protocol.
Import Js Effects.

(** [request.params] of a [tools/call] request.  [CallToolRequestSchema],
    under which the handler is registered, makes [name] a string and leaves
    [arguments] to the handler; an absent property reads as [undefined]. *)
Record Request : Type := {
  name : string;
  arguments : JsVal
}.

(** A call of [generate_image] with an arguments object. *)
Definition generate (props : JsObj) : Request :=
  {| name := "generate_image"; arguments := JObj props |}.

(** [{ content: [{ type: 'text', text }] }]. *)
Definition text_result (text : JsVal) : JsVal :=
  JObj [("content", JArr [JObj [("type", JStr "text"); ("text", text)]])].

(** [{ content: [{ type: 'text', text }], isError: true }]. *)
Definition error_result (text : JsVal) : JsVal :=
  JObj [("content", JArr [JObj [("type", JStr "text"); ("text", text)]]);
        ("isError", JBool true)].

(** [error.response?.data?.message]. *)
Definition response_message (error : Exn) : JsVal :=
  match error with
  | AxiosError _ (Some data) => get_opt data "message"
  | _ => JUndefined
  end.

(** A template literal with one hole after [prefix]. *)
Definition template `{Platform} (prefix : string) (v : JsVal) : Prog string :=
  match ToString v with
  | Some s => Ret (prefix ++ s)
  | None => Throw (OtherError "Cannot convert object to primitive value")
  end.

(** The [catch (error)] block that closes both handlers. *)
Definition on_error `{Platform} (error : Exn) : Prog JsVal :=
  if isAxiosError error then
    (let! text :=
       template "API Error: "
         (js_or (response_message error) (JStr (exn_message error))) in
     Ret (error_result (JStr text)))%prog
  else Throw error.

(** One property of an [inputSchema]. *)
Definition string_property (description : string) : JsVal :=
  JObj [("type", JStr "string"); ("description", JStr description)].

Definition number_property (description : string) (minimum maximum : Z) : JsVal :=
  JObj [("type", JStr "number"); ("description", JStr description);
        ("minimum", JInt minimum); ("maximum", JInt maximum)].

(** [s || fallback] for an optional string [s]. *)
Definition string_or (s : option string) (fallback : string) : string :=
  match s with
  | Some x => if String.eqb x EmptyString then fallback else x
  | None => fallback
  end.

End Protocol.

(** ** The URL-only server: [src/src/index.ts] *)
Module UrlOnly.
Import Js Effects Protocol.

Record Server : Type := {
  apiKey : string;
  openaiApiUrl : string;
  defaultConfig : loc
}.

Definition baseDefaultConfig : JsObj :=
  [("width", JInt 1024); ("height", JInt 768); ("steps", JInt 1); ("n", JInt 1)].

(** The object the constructor stores in [this.defaultConfig]. *)
Definition defaultConfig_value (defaultModel : option string) : JsObj :=
  obj_set "model"
    (JStr (string_or defaultModel "black-forest-labs/FLUX.1-schnell-Free"))
    (spread [] (JObj baseDefaultConfig)).

(** [new ImageGenerationServer(apiKey, openaiApiUrl, defaultModel)], up to
    the creation of the SDK server. *)
Definition new_ImageGenerationServer
    (apiKey : string) (openaiApiUrl defaultModel : option string) : Prog Server :=
  if String.eqb apiKey EmptyString then Throw (OtherError "OPENAI_API_KEY is required")
  else
    (let! config := newObject (defaultConfig_value defaultModel) in
     Ret {| apiKey := apiKey;
            openaiApiUrl :=
              string_or openaiApiUrl "https://api.openai.com/v1/images/generations";
            defaultConfig := config |})%prog.

Definition inputSchema (model : string) : JsVal :=
  JObj [("type", JStr "object");
        ("properties", JObj [
           ("prompt", string_property "Text prompt for image generation");
           ("model", string_property
              ("Model to use for generation (default: " ++ model ++ ")"));
           ("width", number_property "Image width (default: 1024)" 128 2048);
           ("height", number_property "Image height (default: 768)" 128 2048);
           ("steps", number_property "Number of inference steps (default: 1)" 1 100);
           ("n", number_property "Number of images to generate (default: 1)" 1 4)]);
        ("required", JArr [JStr "prompt"])].

Definition tools (model : string) : JsVal :=
  JObj [("tools", JArr [JObj [
    ("name", JStr "generate_image");
    ("description", JStr "Generates an image using an OpenAI compatible API and returns a direct URL to the result. It is recommended to format the output URL using Markdown for better display.");
    ("inputSchema", inputSchema model)]])].

Definition listToolsHandler `{Platform} (this : Server) : Prog JsVal :=
  (let! config := readObject (defaultConfig this) in
   let! model := template EmptyString (get (JObj config) "model") in
   Ret (tools model))%prog.

(** The object literal [requestBody]. *)
Definition requestBody (defaults : JsObj) (args : JsVal) : JsObj :=
  let o := spread [] (JObj defaults) in
  let o := obj_set "prompt" (get args "prompt") o in
  let o := spread o (js_and (get args "model") (JObj [("model", get args "model")])) in
  let o := spread o (js_and (get args "width") (JObj [("width", get args "width")])) in
  let o := spread o (js_and (get args "height") (JObj [("height", get args "height")])) in
  let o := spread o (js_and (get args "steps") (JObj [("steps", get args "steps")])) in
  let o := spread o (js_and (get args "n") (JObj [("n", get args "n")])) in
  obj_set "response_format" (JStr "url") o.

Definition headers (this : Server) : Headers :=
  [("Authorization", "Bearer " ++ apiKey this);
   ("Content-Type", "application/json")].

(** [response.data?.data?.[0]?.url]. *)
Definition imageUrl_of (data : JsVal) : JsVal :=
  get_opt (get_index0_opt (get_opt data "data")) "url".

Definition callToolHandler `{Platform} (this : Server) (request : Request)
  : Prog JsVal :=
  if negb (String.eqb (name request) "generate_image") then
    Throw (McpError MethodNotFound ("Unknown tool: " ++ name request))
  else if negb (truthy (arguments request))
          || negb (String.eqb (typeof (arguments request)) "object") then
    Throw (McpError InvalidParams "Invalid arguments provided")
  else if negb (has_property "prompt" (arguments request))
          || negb (String.eqb (typeof (get (arguments request) "prompt")) "string") then
    Throw (McpError InvalidParams "Prompt is required and must be a string")
  else
    (let! defaults := readObject (defaultConfig this) in
     let! body := newObject (requestBody defaults (arguments request)) in
     try_catch
       (let! data := post (openaiApiUrl this) body (headers this) in
        let imageUrl := imageUrl_of data in
        if negb (truthy imageUrl) then
          Throw (McpError InternalError "API response did not contain an image URL.")
        else Ret (text_result imageUrl))
       on_error)%prog.

End UrlOnly.

(** ** The server with inline results and [image_path]: [src/unnamed/part_001] *)
Module Inline.
Import Js Effects Protocol.

(** The module-level [const defaultConfig]. *)
Definition defaultConfig_value : JsObj :=
  [("model", JStr "black-forest-labs/FLUX.1-schnell-Free");
   ("width", JInt 1024);
   ("height", JInt 768);
   ("steps", JInt 1);
   ("n", JInt 1);
   ("response_format", JStr "b64_json")].

(** The module's top level binds [defaultConfig] to a new object. *)
Definition module_init : Prog loc := newObject defaultConfig_value.

Record Server : Type := {
  apiKey : string;
  apiUrl : string
}.

Definition new_ImageGenerationServer (apiKey : string) (apiUrl : option string)
  : Prog Server :=
  if String.eqb apiKey EmptyString then Throw (OtherError "OPENAI_API_KEY is required")
  else
    Ret {| apiKey := apiKey;
           apiUrl := string_or apiUrl "https://api.openai.com/v1/images/generations" |}.

Definition inputSchema : JsVal :=
  JObj [("type", JStr "object");
        ("properties", JObj [
           ("prompt", string_property "Text prompt for image generation");
           ("model", string_property
              "Model to use for generation (default: black-forest-labs/FLUX.1-schnell-Free)");
           ("width", number_property "Image width (default: 1024)" 128 2048);
           ("height", number_property "Image height (default: 768)" 128 2048);
           ("steps", number_property "Number of inference steps (default: 1)" 1 100);
           ("n", number_property "Number of images to generate (default: 1)" 1 4);
           ("response_format", JObj [
              ("type", JStr "string");
              ("description", JStr "Response format (default: b64_json)");
              ("enum", JArr [JStr "b64_json"; JStr "url"])]);
           ("image_path", string_property
              "Optional path to save the generated image as PNG")]);
        ("required", JArr [JStr "prompt"])].

Definition tools : JsVal :=
  JObj [("tools", JArr [JObj [
    ("name", JStr "generate_image");
    ("description", JStr "Generate an image using an OpenAI compatible API");
    ("inputSchema", inputSchema)]])].

Definition listToolsHandler : Prog JsVal := Ret tools.

(** The object literal [requestBody]. *)
Definition requestBody (defaults : JsObj) (args : JsVal) : JsObj :=
  let o := spread [] (JObj defaults) in
  let o := obj_set "prompt" (get args "prompt") o in
  let o := spread o (js_and (get args "model") (JObj [("model", get args "model")])) in
  let o := spread o (js_and (get args "width") (JObj [("width", get args "width")])) in
  let o := spread o (js_and (get args "height") (JObj [("height", get args "height")])) in
  let o := spread o (js_and (get args "steps") (JObj [("steps", get args "steps")])) in
  let o := spread o (js_and (get args "n") (JObj [("n", get args "n")])) in
  spread o (js_and (get args "response_format")
              (JObj [("response_format", get args "response_format")])).

Definition headers (this : Server) : Headers :=
  [("Authorization", "Bearer " ++ apiKey this);
   ("Content-Type", "application/json")].

Definition newline : string := String "010"%char EmptyString.

(** [response.data.data]: reading a property of [undefined] or [null] is a
    [TypeError]. *)
Definition data_of (data : JsVal) : Prog JsVal :=
  match data with
  | JUndefined =>
      Throw (OtherError "Cannot read properties of undefined (reading 'data')")
  | JNull =>
      Throw (OtherError "Cannot read properties of null (reading 'data')")
  | _ => Ret (get data "data")
  end.

(** [Buffer.from(v, 'base64')] for a truthy [v]. *)
Definition Buffer_from `{Platform} (v : JsVal) : Prog (list byte) :=
  match v with
  | JStr s => Ret (Base64.decode s)
  | _ =>
      match Buffer_from_other v with
      | inl message => Throw (OtherError message)
      | inr bytes => Ret bytes
      end
  end.

(** [path.resolve(v)]. *)
Definition resolve `{Platform} (v : JsVal) : Prog string :=
  match v with
  | JStr p => Ret (path_resolve p)
  | _ => Throw (OtherError (path_resolve_invalid v))
  end.

(** The block guarded by [image_path && ...b64_json]. *)
Definition save_image `{Platform} (image_path b64_json data : JsVal) : Prog JsVal :=
  try_catch
    (let! imageBuffer := Buffer_from b64_json in
     let! outputPath := resolve image_path in
     let! _ := writeFile outputPath imageBuffer in
     Ret (text_result
            (JStr ("Image saved successfully to: " ++ outputPath
                   ++ newline ++ newline ++ JSON_stringify data))))%prog
    (fun error =>
       Throw (McpError InternalError ("Failed to save image: " ++ exn_message error))).

(** What follows [await axios.post] inside the [try]. *)
Definition shape_result `{Platform} (args data : JsVal) : Prog JsVal :=
  let plain := Ret (text_result (JStr (JSON_stringify data))) in
  if truthy (get args "image_path") then
    (let! entries := data_of data in
     let b64_json := get_opt (get_index0_opt entries) "b64_json" in
     if truthy b64_json then save_image (get args "image_path") b64_json data
     else plain)%prog
  else plain.

Definition callToolHandler `{Platform} (defaultConfig : loc) (this : Server)
    (request : Request) : Prog JsVal :=
  if negb (String.eqb (name request) "generate_image") then
    Throw (McpError MethodNotFound ("Unknown tool: " ++ name request))
  else if negb (truthy (arguments request))
          || negb (String.eqb (typeof (arguments request)) "object") then
    Throw (McpError InvalidParams "Invalid arguments provided")
  else if negb (has_property "prompt" (arguments request))
          || negb (String.eqb (typeof (get (arguments request) "prompt")) "string") then
    Throw (McpError InvalidParams "Prompt is required and must be a string")
  else
    (let! defaults := readObject defaultConfig in
     let! body := newObject (requestBody defaults (arguments request)) in
     try_catch
       (let! data := post (apiUrl this) body (headers this) in
        shape_result (arguments request) data)
       on_error)%prog.

End Inline.

(** ** Terms of the statements

    Names for what the theorems speak about; none of this is in the
    source. *)
Module Terms.
Import Js Effects Protocol.

(** Whether a value meets the [type], [minimum], [maximum] and [enum] that a
    property schema declares. *)
Definition meets_bound (bound : JsVal) (le : JsNumber -> bool) : bool :=
  match bound with
  | JNum b => le b
  | _ => true
  end.

Definition is_text (s : string) (v : JsVal) : bool :=
  match v with
  | JStr s' => String.eqb s s'
  | _ => false
  end.

Definition meets_enum (enum : JsVal) (s : string) : bool :=
  match enum with
  | JArr options => existsb (is_text s) options
  | _ => true
  end.

Definition meets_schema (schema : JsVal) (v : JsVal) : bool :=
  match v with
  | JNum x =>
      is_text "number" (get schema "type")
      && meets_bound (get schema "minimum") (fun lo => num_leb lo x)
      && meets_bound (get schema "maximum") (fun hi => num_leb x hi)
  | JStr s =>
      is_text "string" (get schema "type") && meets_enum (get schema "enum") s
  | _ => false
  end.

(** The constraint of a field of the request sent downstream: what the
    tool's [inputSchema] declares for it and, for [prompt], that the text is
    not empty. *)
Definition field_ok (inputSchema : JsVal) (k : string) (v : JsVal) : bool :=
  meets_schema (get (get inputSchema "properties") k) v
  && (if String.eqb k "prompt" then truthy v else true).

(** The fields of the request that carry a constraint on their value. *)
Definition constrained_fields : list string :=
  ["prompt"; "width"; "height"; "steps"; "n"].

Definition payload_ok (inputSchema : JsVal) (body : JsObj) : bool :=
  forallb
    (fun k => match obj_get k body with
              | Some v => field_ok inputSchema k v
              | None => true
              end)
    constrained_fields.


(** The optional numeric fields of the arguments. *)
Definition numeric_fields : list string := ["width"; "height"; "steps"; "n"].

(** The arguments a handler accepts: an object whose [prompt] is a
    string. *)
Definition acceptable (args : JsVal) : bool :=
  match args with
  | JObj props =>
      match obj_get "prompt" props with
      | Some (JStr _) => true
      | _ => false
      end
  | _ => false
  end.

(** The message of the invalid-params error for arguments that are not
    accepted: an object or array is at fault for its [prompt], anything else
    for not being an object. *)
Definition invalid_params_message (args : JsVal) : string :=
  match args with
  | JArr _ | JObj _ => "Prompt is required and must be a string"
  | _ => "Invalid arguments provided"
  end.

Definition well_formed (request : Request) (props : JsObj) (p : string) : Prop :=
  name request = "generate_image"
  /\ arguments request = JObj props
  /\ obj_get "prompt" props = Some (JStr p).

(** Programs that neither create an object nor hand one to the HTTP
    client. *)
Inductive heap_silent {A : Type} : Prog A -> Prop :=
  | silent_ret a : heap_silent (Ret a)
  | silent_throw e : heap_silent (Throw e)
  | silent_read l k : (forall o, heap_silent (k o)) -> heap_silent (ReadObject l k)
  | silent_write p d k :
      (forall r, heap_silent (k r)) -> heap_silent (FsWriteFile p d k).

(** The outcome of the [catch] block. *)
Definition error_outcome `{Platform} (error : Exn) : Outcome JsVal :=
  if isAxiosError error then
    match ToString (js_or (response_message error) (JStr (exn_message error))) with
    | Some s => Returned (error_result (JStr ("API Error: " ++ s)))
    | None => Threw (OtherError "Cannot convert object to primitive value")
    end
  else Threw error.


(** What the handler answers once the service has. *)
Definition url_outcome `{Platform} (r : Exn + JsVal) : Outcome JsVal :=
  match r with
  | inr data =>
      if truthy (UrlOnly.imageUrl_of data) then Returned (text_result (UrlOnly.imageUrl_of data))
      else Threw (McpError InternalError "API response did not contain an image URL.")
  | inl e => error_outcome e
  end.

(** What follows the answer of the service. *)
Definition inline_after_post `{Platform} (args : JsVal) (r : Exn + JsVal) : Prog JsVal :=
  try_catch
    match r with
    | inl e => Throw e
    | inr data => Inline.shape_result args data
    end
    on_error.

(** [response.data.data?.[0]?.b64_json]. *)
Definition first_b64_json (data : JsVal) : JsVal :=
  get_opt (get_index0_opt (get data "data")) "b64_json".

End Terms.

(** ** Concrete platforms, worlds and requests *)
Module Examples.
Import Js Effects Protocol.

(** A platform whose working directory is [/srv].  Its two printers are
    constant; where a statement below depends on what they print, it names
    them. *)
Definition posix : Platform := {|
  Number_toString := fun _ => "0";
  JSON_stringify := fun _ => "{}";
  path_resolve := fun p =>
    match p with
    | String "/"%char _ => p
    | _ => "/srv/" ++ p
    end;
  path_resolve_invalid := fun _ =>
    "The paths[0] argument must be of type string.";
  Buffer_from_other := fun _ =>
    inl "The first argument must be of type string or an instance of Buffer."
|}.

(** A process in which each server has been set up: the URL-only server's
    [defaultConfig] at location 0, the other module's at location 1. *)
Definition url_server : UrlOnly.Server := {|
  UrlOnly.apiKey := "sk-test";
  UrlOnly.openaiApiUrl := "https://api.openai.com/v1/images/generations";
  UrlOnly.defaultConfig := 0%nat
|}.

Definition inline_server : Inline.Server := {|
  Inline.apiKey := "sk-test";
  Inline.apiUrl := "https://api.openai.com/v1/images/generations"
|}.

Definition inline_defaultConfig : loc := 1%nat.

Definition booted : State := {|
  heap := <[0%nat := UrlOnly.defaultConfig_value None]>
            (<[1%nat := Inline.defaultConfig_value]> ∅);
  files := ∅
|}.

(** Worlds: a service that answers every request alike, a client that
    leaves the body alone, a file system that accepts every write. *)
Definition answering (r : Exn + JsVal) : Env := {|
  downstream := fun _ _ _ => r;
  client_touch := fun o => o;
  write_fault := fun _ _ => None
|}.

Definition url_answer (url : string) : JsVal :=
  JObj [("id", JStr "img-1"); ("object", JStr "list");
        ("data", JArr [JObj [("index", JInt 0); ("url", JStr url)]])].

Definition b64_answer (b64 : string) : JsVal :=
  JObj [("id", JStr "img-1"); ("object", JStr "list");
        ("data", JArr [JObj [("index", JInt 0); ("b64_json", JStr b64)]])].

End Examples.

(** ** Start-up: command line, environment, construction *)
Module Startup.
Import Js Effects Protocol.

(** [parsed[key] = value] on an object created by [{}].  Assigning a string
    to [__proto__] calls the inherited setter, which ignores any value that is
    not an object: no property is created. *)
Definition assign (key value : string) (parsed : gmap string string)
  : gmap string string :=
  if String.eqb key "__proto__" then parsed else <[key := value]> parsed.

(** [args[i]] for an [i] in range. *)
Definition arg (args : list string) (i : nat) : string :=
  match args !! i with
  | Some a => a
  | None => EmptyString
  end.

(** The [for] loop of [parseCliArgs], from index [i] on.  Each turn moves [i]
    forward, so [length args] turns are enough ([parse_loop_fuel]). *)
Fixpoint parse_loop (fuel : nat) (args : list string) (i : nat)
    (parsed : gmap string string) : gmap string string :=
  match fuel with
  | O => parsed
  | S fuel' =>
      if (i <? length args)%nat then
        if String.eqb (arg args i) "-e" && (i + 2 <? length args)%nat then
          parse_loop fuel' args (i + 2 + 1)
            (assign (arg args (i + 1)) (arg args (i + 2)) parsed)
        else parse_loop fuel' args (i + 1) parsed
      else parsed
  end.

(** [parseCliArgs(argv)] of [src/src/index.ts]. *)
Definition parseCliArgs (argv : list string) : gmap string string :=
  let args := drop 2 argv in
  parse_loop (length args) args 0 ∅.

(** The same scan, written on the rest of the list. *)
Fixpoint parse_from (rest : list string) (parsed : gmap string string)
  : gmap string string :=
  match rest with
  | [] => parsed
  | a :: rest' =>
      if String.eqb a "-e" then
        match rest' with
        | key :: value :: rest'' => parse_from rest'' (assign key value parsed)
        | _ => parse_from rest' parsed
        end
      else parse_from rest' parsed
  end.

(** [a || b] for two values that are each a string or [undefined]. *)
Definition or_else (a b : option string) : option string :=
  match a with
  | Some x => if String.eqb x EmptyString then b else a
  | None => b
  end.

(** [cliArgs.NAME || process.env.NAME]. *)
Definition setting (cliArgs env : gmap string string) (name : string)
  : option string :=
  or_else (cliArgs !! name) (env !! name).

(** [!v] for a string or [undefined]. *)
Definition missing (v : option string) : bool :=
  match v with
  | Some x => String.eqb x EmptyString
  | None => true
  end.

(** The top level of [src/src/index.ts], up to the connection of the
    transport: [process.argv] and [process.env] decide the configuration. *)
Definition url_main (argv : list string) (env : gmap string string)
  : Prog UrlOnly.Server :=
  let cliArgs := parseCliArgs argv in
  let API_KEY := setting cliArgs env "OPENAI_API_KEY" in
  let OPENAI_API_URL := setting cliArgs env "OPENAI_API_URL" in
  let DEFAULT_MODEL := setting cliArgs env "DEFAULT_MODEL" in
  match API_KEY with
  | Some key =>
      if String.eqb key EmptyString then
        Throw (OtherError "OPENAI_API_KEY environment variable is required")
      else UrlOnly.new_ImageGenerationServer key OPENAI_API_URL DEFAULT_MODEL
  | None => Throw (OtherError "OPENAI_API_KEY environment variable is required")
  end.

(** The top level of [src/unnamed/part_001]: the module binds
    [defaultConfig] first, then reads [process.env]. *)
Definition inline_main (env : gmap string string) : Prog (loc * Inline.Server) :=
  (let! config := Inline.module_init in
   match env !! "OPENAI_API_KEY" with
   | Some key =>
       if String.eqb key EmptyString then
         Throw (OtherError "OPENAI_API_KEY environment variable is required")
       else
         let! server := Inline.new_ImageGenerationServer key (env !! "API_URL") in
         Ret (config, server)
   | None => Throw (OtherError "OPENAI_API_KEY environment variable is required")
   end)%prog.

End Startup.

(** ** [handleRequest]: the handlers behind an HTTP request *)
Module Http.
Import Js Effects Protocol.

(** What the runtime and the SDK supply here. *)
Class Runtime : Type := {
  (** [JSON.stringify(v)]. *)
  JSON_stringify_compact : JsVal -> string;
  (** [error.message] of [new McpError(code, message)]. *)
  McpError_message : ErrorCode -> string -> string
}.

(** [error.message]. *)
Definition message_of `{Runtime} (error : Exn) : string :=
  match error with
  | McpError code message => McpError_message code message
  | AxiosError message _ => message
  | OtherError message => message
  end.

(** [new Response(body, { status, headers })]; the status is 200 when none is
    given. *)
Record Response : Type := {
  status : Z;
  response_headers : Headers;
  response_body : string
}.

Definition json_headers : Headers := [("Content-Type", "application/json")].

(** [v.k]: reading a property of [undefined] or [null] is a [TypeError]. *)
Definition read_property (v : JsVal) (k : string) : Prog JsVal :=
  match v with
  | JUndefined =>
      Throw (OtherError ("Cannot read properties of undefined (reading '" ++ k ++ "')"))
  | JNull =>
      Throw (OtherError ("Cannot read properties of null (reading '" ++ k ++ "')"))
  | _ => Ret (get v k)
  end.

(** [v === s] for a string literal [s]. *)
Definition is_string (s : string) (v : JsVal) : bool :=
  match v with
  | JStr s' => String.eqb s' s
  | _ => false
  end.

(** [callToolHandler(body)] for a body of any shape.  A [name] that is a
    string is the case the handlers of [UrlOnly] and [Inline] embed; any
    other [name] differs from 'generate_image' and takes the first branch. *)
Definition call `{Platform} (callToolHandler : Request -> Prog JsVal)
    (request : JsVal) : Prog JsVal :=
  (let! params := read_property request "params" in
   let! name := read_property params "name" in
   match name with
   | JStr s => callToolHandler {| name := s; arguments := get params "arguments" |}
   | _ =>
       let! text := template "Unknown tool: " name in
       Throw (McpError MethodNotFound text)
   end)%prog.

(** [handleRequest(request)], given what [await request.json()] gives. *)
Definition handleRequest `{Platform} `{Runtime}
    (listToolsHandler : Prog JsVal) (callToolHandler : Request -> Prog JsVal)
    (json : Exn + JsVal) : Prog Response :=
  try_catch
    (let! body := match json with inl e => Throw e | inr b => Ret b end in
     let! method := read_property body "method" in
     let! result :=
       if is_string "list_tools" method then listToolsHandler
       else if is_string "call_tool" method then call callToolHandler body
       else (let! text := template "Unknown method: " method in
             Throw (OtherError text)) in
     Ret {| status := 200;
            response_headers := json_headers;
            response_body := JSON_stringify_compact result |})%prog
    (fun error =>
       Ret {| status := 500;
              response_headers := json_headers;
              response_body :=
                JSON_stringify_compact (JObj [("error", JStr (message_of error))]) |}).

Definition url_handleRequest `{Platform} `{Runtime} (this : UrlOnly.Server)
    (json : Exn + JsVal) : Prog Response :=
  handleRequest (UrlOnly.listToolsHandler this) (UrlOnly.callToolHandler this) json.


End Http.

(** ** More terms and examples *)
Module MoreTerms.
Import Js Effects Protocol.

(** The command line [node script -e k1 v1 -e k2 v2 ...]. *)
Definition triples (bindings : list (string * string)) : list string :=
  flat_map (fun kv => ["-e"; fst kv; snd kv]) bindings.

(** The names of the properties of an object, in order. *)
Definition keys (o : JsObj) : list string := map fst o.

(** The names of the tools a catalog advertises. *)
Definition advertised (catalog : JsVal) : list string :=
  match get catalog "tools" with
  | JArr entries =>
      flat_map (fun t => match get t "name" with JStr s => [s] | _ => [] end) entries
  | _ => []
  end.

(** The two results of the server with inline results. *)
Definition plain_result `{Platform} (data : JsVal) : JsVal :=
  JObj [("content",
         JArr [JObj [("type", JStr "text"); ("text", JStr (JSON_stringify data))]])].

Definition saved_result `{Platform} (outputPath : string) (data : JsVal) : JsVal :=
  JObj [("content",
         JArr [JObj [("type", JStr "text");
                     ("text",
                      JStr ("Image saved successfully to: " ++ outputPath
                            ++ String "010"%char
                                 (String "010"%char (JSON_stringify data))))]])].

(** The error every failure inside the save block becomes. *)
Definition save_failure (message : string) : Exn :=
  McpError InternalError ("Failed to save image: " ++ message).

(** What [Buffer.from(v, 'base64')] gives for a truthy [v]: the message of
    its error, or the bytes. *)
Definition buffer_of `{Platform} (v : JsVal) : string + list byte :=
  match v with
  | JStr s => inr (Base64.decode s)
  | _ => Buffer_from_other v
  end.

(** The two responses of [handleRequest]. *)
Definition ok_response `{Http.Runtime} (result : JsVal) : Http.Response :=
  {| Http.status := 200;
     Http.response_headers := Http.json_headers;
     Http.response_body := Http.JSON_stringify_compact result |}.

Definition error_response `{Http.Runtime} (error : Exn) : Http.Response :=
  {| Http.status := 500;
     Http.response_headers := Http.json_headers;
     Http.response_body :=
       Http.JSON_stringify_compact (JObj [("error", JStr (Http.message_of error))]) |}.

(** The response to what a handler did. *)
Definition respond `{Http.Runtime} (o : Outcome JsVal) : Http.Response :=
  match o with
  | Returned result => ok_response result
  | Threw error => error_response error
  end.

(** The result that is dispatched for a body that can be read. *)
Definition dispatched `{Platform} (listToolsHandler : Prog JsVal)
    (callToolHandler : Request -> Prog JsVal) (body : JsVal) : Prog JsVal :=
  if Http.is_string "list_tools" (get body "method") then listToolsHandler
  else if Http.is_string "call_tool" (get body "method") then Http.call callToolHandler body
  else (let! text := template "Unknown method: " (get body "method") in
        Throw (OtherError text))%prog.

(** A runtime whose [McpError] messages carry the code and whose compact
    printer is constant. *)
Definition sample_runtime : Http.Runtime := {|
  Http.JSON_stringify_compact := fun _ => "{}";
  Http.McpError_message := fun code message =>
    match code with
    | MethodNotFound => "MCP error -32601: " ++ message
    | InvalidParams => "MCP error -32602: " ++ message
    | InternalError => "MCP error -32603: " ++ message
    end
|}.

End MoreTerms.

(** * Properties *)

(** ** Objects and spreads *)
Module ObjFacts.
Import Js.

Lemma obj_get_set (k k' : string) (v : JsVal) (o : JsObj) :
  obj_get k (obj_set k' v o) = if String.eqb k k' then Some v else obj_get k o.
Proof.
  induction o as [|[k0 v0] rest IH]; simpl.
  - destruct (String.eqb k k'); reflexivity.
  - destruct (String.eqb k' k0) eqn:E0; simpl.
    + apply String.eqb_eq in E0. subst k0.
      destruct (String.eqb k k'); reflexivity.
    + destruct (String.eqb k k0) eqn:E1.
      * apply String.eqb_eq in E1. subst k0.
        rewrite String.eqb_sym in E0. rewrite E0. reflexivity.
      * exact IH.
Qed.

Lemma obj_get_set_eq (k : string) (v : JsVal) (o : JsObj) :
  obj_get k (obj_set k v o) = Some v.
Proof. rewrite obj_get_set, String.eqb_refl. reflexivity. Qed.

Lemma obj_get_set_ne (k k' : string) (v : JsVal) (o : JsObj) :
  k <> k' -> obj_get k (obj_set k' v o) = obj_get k o.
Proof.
  intros Hne. rewrite obj_get_set.
  destruct (String.eqb k k') eqn:E; [apply String.eqb_eq in E; contradiction|reflexivity].
Qed.

(** A falsy value is no object, so spreading it adds nothing: the idiom
    [...(x && { k: x })] sets [k] exactly when [x] is truthy. *)
Lemma js_and_spread (o : JsObj) (k : string) (x : JsVal) :
  spread o (js_and x (JObj [(k, x)])) = if truthy x then obj_set k x o else o.
Proof.
  unfold js_and. destruct (truthy x) eqn:T; [reflexivity|].
  destruct x; simpl in T; try discriminate; reflexivity.
Qed.

Lemma obj_get_spread_and (o : JsObj) (k k' : string) (x : JsVal) :
  obj_get k (spread o (js_and x (JObj [(k', x)]))) =
  if truthy x && String.eqb k k' then Some x else obj_get k o.
Proof.
  rewrite js_and_spread. destruct (truthy x); simpl; [apply obj_get_set|reflexivity].
Qed.

(** Reading a property the caller's object holds. *)
Lemma get_obj (props : JsObj) (k : string) (v : JsVal) :
  obj_get k props = Some v -> get (JObj props) k = v.
Proof. intros H. simpl. rewrite H. reflexivity. Qed.

Lemma get_obj_set_ne (props : JsObj) (k k' : string) (v : JsVal) :
  k <> k' -> get (JObj (obj_set k' v props)) k = get (JObj props) k.
Proof. intros Hne. simpl. rewrite obj_get_set_ne by exact Hne. reflexivity. Qed.

End ObjFacts.

(** ** Base64 *)
Module Base64Facts.
Import Base64.











End Base64Facts.

(** ** Running the handlers *)
Module RunFacts.
Import Js Effects Protocol Terms ObjFacts.

Lemma heap_read_insert (h : gmap loc JsObj) (f : gmap string (list byte))
    (l : loc) (o : JsObj) :
  heap_read {| heap := <[l := o]> h; files := f |} l = o.
Proof. unfold heap_read. cbn. rewrite lookup_insert_eq. reflexivity. Qed.

Lemma heap_read_lookup (st : State) (l : loc) (o : JsObj) :
  heap st !! l = Some o -> heap_read st l = o.
Proof. unfold heap_read. intros ->. reflexivity. Qed.

(** [heap_silent] goes through sequencing and [try]/[catch]. *)
Lemma heap_silent_bind {A B : Type} (m : Prog A) (f : A -> Prog B) :
  heap_silent m -> (forall a, heap_silent (f a)) -> heap_silent (bind m f).
Proof.
  intros Hm Hf. induction Hm; cbn; auto using @heap_silent.
Qed.

Lemma heap_silent_try_catch {A : Type} (m : Prog A) (h : Exn -> Prog A) :
  heap_silent m -> (forall e, heap_silent (h e)) -> heap_silent (try_catch m h).
Proof.
  intros Hm Hh. induction Hm; cbn; auto using @heap_silent.
Qed.

(** Running such a program leaves the heap as it was and sends nothing. *)
Lemma run_heap_silent {A : Type} (env : Env) (m : Prog A) (st : State) :
  heap_silent m ->
  heap (state_of (run env m st)) = heap st
  /\ requests_sent (events_of (run env m st)) = [].
Proof.
  intros Hm. revert st. induction Hm as [a|e|l k _ IH|p d k _ IH]; intros st; cbn.
  - split; reflexivity.
  - split; reflexivity.
  - apply IH.
  - destruct (write_fault env p d) as [[msg residue]|].
    + specialize (IH (Some msg) (after_failed_write p d residue st)).
      destruct (run env (k (Some msg)) _) as [[out evs] st'].
      destruct residue; exact IH.
    + specialize (IH None {| heap := heap st; files := <[p := d]> (files st) |}).
      destruct (run env (k None) _) as [[out evs] st']. exact IH.
Qed.

Lemma posted_bodies_requests (evs : list Event) :
  posted_bodies evs = map (fun r => snd (fst r)) (requests_sent evs).
Proof.
  unfold posted_bodies, requests_sent.
  induction evs as [|[u b h|p d] evs IH]; cbn; [reflexivity| |exact IH].
  f_equal. exact IH.
Qed.

Lemma run_on_error `{Platform} env st error :
  run env (on_error error) st = (error_outcome error, [], st).
Proof.
  unfold on_error, error_outcome, template.
  destruct (isAxiosError error); [|reflexivity].
  destruct (ToString _); reflexivity.
Qed.

Lemma heap_silent_on_error `{Platform} error : heap_silent (on_error error).
Proof.
  unfold on_error, template. destruct (isAxiosError error); [|constructor].
  destruct (ToString _); constructor.
Qed.

Lemma acceptable_inv (args : JsVal) :
  acceptable args = true ->
  exists props p, args = JObj props /\ obj_get "prompt" props = Some (JStr p).
Proof.
  destruct args as [| | | | |xs|props]; try discriminate. cbn.
  destruct (obj_get "prompt" props) as [[| | | |p| |]|] eqn:E; try discriminate.
  intros _. exists props, p. split; [reflexivity|exact E].
Qed.

End RunFacts.

(** ** The URL-only handler *)
Module UrlFacts.
Import Js Effects Protocol Terms ObjFacts RunFacts UrlOnly.

Lemma url_run_valid `{Platform} env st this request props p :
  well_formed request props p ->
  run env (callToolHandler this request) st =
    let body := requestBody (heap_read st (defaultConfig this)) (JObj props) in
    let l := fresh (dom (heap st)) in
    (url_outcome (downstream env (openaiApiUrl this) body (headers this)),
     [EvPost (openaiApiUrl this) body (headers this)],
     {| heap := <[l := client_touch env body]> (<[l := body]> (heap st));
        files := files st |}).
Proof.
  intros (Hn & Ha & Hp). unfold callToolHandler. rewrite Hn, Ha.
  cbn -[requestBody]. rewrite Hp. cbn -[requestBody ToString].
  rewrite !heap_read_insert.
  destruct (downstream _ _ _ _) as [e|data]; cbn -[requestBody ToString].
  - unfold error_outcome.
    destruct e; cbn -[requestBody ToString]; try reflexivity.
    unfold template. destruct (ToString _); reflexivity.
  - destruct (truthy (imageUrl_of data)); reflexivity.
Qed.

(** The constructor leaves [this.defaultConfig] bound to an object that holds
    the defaults, which is the state the handler is then called in. *)
Lemma url_constructor_configures env st key url model :
  key <> EmptyString ->
  exists this st',
    run env (new_ImageGenerationServer key url model) st = (Returned this, [], st')
    /\ heap st' !! defaultConfig this = Some (defaultConfig_value model)
    /\ apiKey this = key
    /\ files st' = files st.
Proof.
  intros Hkey. apply String.eqb_neq in Hkey.
  unfold new_ImageGenerationServer. rewrite Hkey. cbn -[defaultConfig_value].
  eexists _, _. split; [reflexivity|]. cbn -[defaultConfig_value].
  split; [apply lookup_insert_eq|split; reflexivity].
Qed.

Lemma url_unknown_tool `{Platform} this request :
  name request <> "generate_image" ->
  callToolHandler this request =
    Throw (McpError MethodNotFound ("Unknown tool: " ++ name request)).
Proof.
  intros Hn. unfold callToolHandler.
  destruct (String.eqb (name request) "generate_image") eqn:E; [|reflexivity].
  apply String.eqb_eq in E. contradiction.
Qed.

Lemma url_invalid_arguments `{Platform} this request :
  name request = "generate_image" ->
  acceptable (arguments request) = false ->
  callToolHandler this request =
    Throw (McpError InvalidParams (invalid_params_message (arguments request))).
Proof.
  intros Hn Hacc. unfold callToolHandler. rewrite Hn. cbn.
  destruct (arguments request) as [| |[|]|[| |]|s|xs|props]; cbn; try reflexivity.
  - destruct (String.eqb s EmptyString); reflexivity.
  - cbn in Hacc.
    destruct (obj_get "prompt" props) as [[| |[|]|x|p| |]|]; cbn;
      try reflexivity; discriminate.
Qed.

(** Every request is rejected before any effect or is well formed. *)
Lemma url_handler_cases `{Platform} this request :
  (exists e, callToolHandler this request = Throw e)
  \/ (exists props p, well_formed request props p).
Proof.
  destruct (String.eqb (name request) "generate_image") eqn:En.
  - apply String.eqb_eq in En.
    destruct (acceptable (arguments request)) eqn:Ea.
    + right. destruct (acceptable_inv _ Ea) as (props & p & Hargs & Hp).
      exists props, p. repeat split; assumption.
    + left. eexists. apply url_invalid_arguments; assumption.
  - left. eexists. apply url_unknown_tool. intros Heq.
    rewrite Heq in En. discriminate.
Qed.

(** The fields of [requestBody], one by one. *)
Lemma url_requestBody_get (defaults : JsObj) (args : JsVal) (k : string) :
  obj_get k (requestBody defaults args) =
    if String.eqb k "response_format" then Some (JStr "url")
    else if truthy (get args "n") && String.eqb k "n" then Some (get args "n")
    else if truthy (get args "steps") && String.eqb k "steps" then Some (get args "steps")
    else if truthy (get args "height") && String.eqb k "height" then Some (get args "height")
    else if truthy (get args "width") && String.eqb k "width" then Some (get args "width")
    else if truthy (get args "model") && String.eqb k "model" then Some (get args "model")
    else if String.eqb k "prompt" then Some (get args "prompt")
    else obj_get k (spread [] (JObj defaults)).
Proof.
  unfold requestBody. rewrite obj_get_set.
  destruct (String.eqb k "response_format"); [reflexivity|].
  rewrite !obj_get_spread_and, obj_get_set. reflexivity.
Qed.

End UrlFacts.

(** ** The handler with inline results *)
Module InlineFacts.
Import Js Effects Protocol Terms ObjFacts RunFacts Inline.

Lemma inline_run_valid `{Platform} env st l this request props p :
  well_formed request props p ->
  run env (callToolHandler l this request) st =
    let body := requestBody (heap_read st l) (JObj props) in
    let fl := fresh (dom (heap st)) in
    let st1 := {| heap := <[fl := client_touch env body]> (<[fl := body]> (heap st));
                  files := files st |} in
    let '(out, evs, st2) :=
      run env (inline_after_post (JObj props) (downstream env (apiUrl this) body (headers this))) st1 in
    (out, EvPost (apiUrl this) body (headers this) :: evs, st2).
Proof.
  intros (Hn & Ha & Hp). unfold callToolHandler. rewrite Hn, Ha.
  cbn -[requestBody]. rewrite Hp. cbn -[requestBody shape_result on_error].
  rewrite !heap_read_insert. unfold inline_after_post.
  destruct (downstream _ _ _ _) as [e|data]; reflexivity.
Qed.

Lemma inline_module_configures env st :
  exists l st',
    run env module_init st = (Returned l, [], st')
    /\ heap st' !! l = Some defaultConfig_value
    /\ files st' = files st.
Proof.
  eexists _, _. split; [reflexivity|]. cbn -[defaultConfig_value].
  split; [apply lookup_insert_eq|reflexivity].
Qed.

Lemma inline_unknown_tool `{Platform} l this request :
  name request <> "generate_image" ->
  callToolHandler l this request =
    Throw (McpError MethodNotFound ("Unknown tool: " ++ name request)).
Proof.
  intros Hn. unfold callToolHandler.
  destruct (String.eqb (name request) "generate_image") eqn:E; [|reflexivity].
  apply String.eqb_eq in E. contradiction.
Qed.

Lemma inline_invalid_arguments `{Platform} l this request :
  name request = "generate_image" ->
  acceptable (arguments request) = false ->
  callToolHandler l this request =
    Throw (McpError InvalidParams (invalid_params_message (arguments request))).
Proof.
  intros Hn Hacc. unfold callToolHandler. rewrite Hn. cbn.
  destruct (arguments request) as [| |[|]|[| |]|s|xs|props]; cbn; try reflexivity.
  - destruct (String.eqb s EmptyString); reflexivity.
  - cbn in Hacc.
    destruct (obj_get "prompt" props) as [[| |[|]|x|p| |]|]; cbn;
      try reflexivity; discriminate.
Qed.

Lemma inline_handler_cases `{Platform} l this request :
  (exists e, callToolHandler l this request = Throw e)
  \/ (exists props p, well_formed request props p).
Proof.
  destruct (String.eqb (name request) "generate_image") eqn:En.
  - apply String.eqb_eq in En.
    destruct (acceptable (arguments request)) eqn:Ea.
    + right. destruct (acceptable_inv _ Ea) as (props & p & Hargs & Hp).
      exists props, p. repeat split; assumption.
    + left. eexists. apply inline_invalid_arguments; assumption.
  - left. eexists. apply inline_unknown_tool. intros Heq.
    rewrite Heq in En. discriminate.
Qed.

Lemma inline_requestBody_get (defaults : JsObj) (args : JsVal) (k : string) :
  obj_get k (requestBody defaults args) =
    if truthy (get args "response_format") && String.eqb k "response_format"
    then Some (get args "response_format")
    else if truthy (get args "n") && String.eqb k "n" then Some (get args "n")
    else if truthy (get args "steps") && String.eqb k "steps" then Some (get args "steps")
    else if truthy (get args "height") && String.eqb k "height" then Some (get args "height")
    else if truthy (get args "width") && String.eqb k "width" then Some (get args "width")
    else if truthy (get args "model") && String.eqb k "model" then Some (get args "model")
    else if String.eqb k "prompt" then Some (get args "prompt")
    else obj_get k (spread [] (JObj defaults)).
Proof.
  unfold requestBody. rewrite !obj_get_spread_and, obj_get_set. reflexivity.
Qed.

Lemma heap_silent_save_image `{Platform} image_path b64_json data :
  heap_silent (save_image image_path b64_json data).
Proof.
  unfold save_image. apply heap_silent_try_catch; [|constructor].
  apply heap_silent_bind.
  - unfold Buffer_from. destruct b64_json; try constructor;
      destruct (Buffer_from_other _); constructor.
  - intros bytes. apply heap_silent_bind.
    + unfold resolve. destruct image_path; constructor.
    + intros path. apply heap_silent_bind; [|constructor].
      unfold writeFile. constructor. intros [m|]; constructor.
Qed.

Lemma heap_silent_shape_result `{Platform} args data :
  heap_silent (shape_result args data).
Proof.
  unfold shape_result. destruct (truthy (get args "image_path")); [|constructor].
  apply heap_silent_bind.
  - unfold data_of. destruct data; constructor.
  - intros entries. destruct (truthy _); [apply heap_silent_save_image|constructor].
Qed.

Lemma heap_silent_after_post `{Platform} args r : heap_silent (inline_after_post args r).
Proof.
  unfold inline_after_post. apply heap_silent_try_catch.
  - destruct r; [constructor|apply heap_silent_shape_result].
  - apply heap_silent_on_error.
Qed.

(** A well-formed request is sent once; nothing after the answer sends
    another. *)
Lemma requests_valid `{Platform} env st l this request props p :
  well_formed request props p ->
  requests_sent (events_of (run env (callToolHandler l this request) st)) =
    [(apiUrl this, requestBody (heap_read st l) (JObj props), headers this)].
Proof.
  intros Hwf. rewrite (inline_run_valid env st l this request props p Hwf). cbv zeta.
  match goal with |- context [run env (inline_after_post ?a ?r) ?s] =>
    pose proof (proj2 (run_heap_silent env (inline_after_post a r) s
                         (heap_silent_after_post a r))) as Hs;
    destruct (run env (inline_after_post a r) s) as [[out evs] st2]
  end.
  cbn in *. rewrite Hs. reflexivity.
Qed.

Lemma heap_valid `{Platform} env st l this request props p :
  well_formed request props p ->
  heap (state_of (run env (callToolHandler l this request) st)) =
    let body := requestBody (heap_read st l) (JObj props) in
    let fl := fresh (dom (heap st)) in
    <[fl := client_touch env body]> (<[fl := body]> (heap st)).
Proof.
  intros Hwf. rewrite (inline_run_valid env st l this request props p Hwf). cbv zeta.
  match goal with |- context [run env (inline_after_post ?a ?r) ?s] =>
    pose proof (proj1 (run_heap_silent env (inline_after_post a r) s
                         (heap_silent_after_post a r))) as Hs;
    destruct (run env (inline_after_post a r) s) as [[out evs] st2]
  end.
  cbn in *. exact Hs.
Qed.


End InlineFacts.

(** ** The claims *)
Import Js Effects Protocol Terms ObjFacts RunFacts.

Lemma posted_url `{Platform} env st this request props p :
  well_formed request props p ->
  posted_bodies (events_of (run env (UrlOnly.callToolHandler this request) st)) =
    [UrlOnly.requestBody (heap_read st (UrlOnly.defaultConfig this)) (JObj props)].
Proof. intros Hwf. rewrite (UrlFacts.url_run_valid _ _ _ _ _ _ Hwf). reflexivity. Qed.

Lemma posted_inline `{Platform} env st l server request props p :
  well_formed request props p ->
  posted_bodies (events_of (run env (Inline.callToolHandler l server request) st)) =
    [Inline.requestBody (heap_read st l) (JObj props)].
Proof.
  intros Hwf. rewrite posted_bodies_requests.
  rewrite (InlineFacts.requests_valid _ _ _ _ _ _ _ Hwf). reflexivity.
Qed.

Lemma well_formed_generate (props : JsObj) (p : string) :
  obj_get "prompt" props = Some (JStr p) -> well_formed (generate props) props p.
Proof. intros Hp. repeat split. exact Hp. Qed.

(** C1.  When the arguments hold a string [prompt] and nothing else, the
    body of the one request sent is the configured defaults with the prompt
    added, field for field: in the URL-only server [width] 1024, [height]
    768, [steps] 1, [n] 1, the configured [model], the prompt and the fixed
    [response_format] "url"; in the other server [model], [width] 1024,
    [height] 768, [steps] 1, [n] 1, [response_format] "b64_json" and the
    prompt. *)
Theorem C1_prompt_only_payload `{Platform} (env : Env) (st_url st_inline : State)
    (this : UrlOnly.Server) (model : option string)
    (defaultConfig : loc) (server : Inline.Server) (p : string) :
  heap st_url !! UrlOnly.defaultConfig this = Some (UrlOnly.defaultConfig_value model) ->
  heap st_inline !! defaultConfig = Some Inline.defaultConfig_value ->
  posted_bodies (events_of
    (run env (UrlOnly.callToolHandler this (generate [("prompt", JStr p)])) st_url)) =
    [[("width", JInt 1024); ("height", JInt 768); ("steps", JInt 1); ("n", JInt 1);
      ("model", JStr (string_or model "black-forest-labs/FLUX.1-schnell-Free"));
      ("prompt", JStr p); ("response_format", JStr "url")]]
  /\ posted_bodies (events_of
       (run env (Inline.callToolHandler defaultConfig server
                   (generate [("prompt", JStr p)])) st_inline)) =
    [[("model", JStr "black-forest-labs/FLUX.1-schnell-Free");
      ("width", JInt 1024); ("height", JInt 768); ("steps", JInt 1); ("n", JInt 1);
      ("response_format", JStr "b64_json"); ("prompt", JStr p)]].
Proof.
  intros Hu Hi. split.
  - rewrite (posted_url env st_url this _ [("prompt", JStr p)] p)
      by (apply well_formed_generate; reflexivity).
    rewrite (heap_read_lookup _ _ _ Hu). reflexivity.
  - rewrite (posted_inline env st_inline defaultConfig server _ [("prompt", JStr p)] p)
      by (apply well_formed_generate; reflexivity).
    rewrite (heap_read_lookup _ _ _ Hi). reflexivity.
Qed.

Lemma C1_prompt_only_payload_witness :
  posted_bodies (events_of
    (run (Examples.answering (inr (Examples.url_answer "https://img.example/1.png")))
       (@UrlOnly.callToolHandler Examples.posix Examples.url_server
          (generate [("prompt", JStr "a lighthouse at dusk")]))
       Examples.booted)) =
    [[("width", JInt 1024); ("height", JInt 768); ("steps", JInt 1); ("n", JInt 1);
      ("model", JStr "black-forest-labs/FLUX.1-schnell-Free");
      ("prompt", JStr "a lighthouse at dusk"); ("response_format", JStr "url")]]
  /\ posted_bodies (events_of
       (run (Examples.answering (inr (Examples.url_answer "https://img.example/1.png")))
          (@Inline.callToolHandler Examples.posix Examples.inline_defaultConfig
             Examples.inline_server (generate [("prompt", JStr "a lighthouse at dusk")]))
          Examples.booted)) =
    [[("model", JStr "black-forest-labs/FLUX.1-schnell-Free");
      ("width", JInt 1024); ("height", JInt 768); ("steps", JInt 1); ("n", JInt 1);
      ("response_format", JStr "b64_json"); ("prompt", JStr "a lighthouse at dusk")]].
Proof.
  apply (@C1_prompt_only_payload Examples.posix
           (Examples.answering (inr (Examples.url_answer "https://img.example/1.png")))
           Examples.booted Examples.booted Examples.url_server None
           Examples.inline_defaultConfig Examples.inline_server "a lighthouse at dusk");
    reflexivity.
Defined.

(** One case for each of [width], [height], [steps] and [n]. *)
Ltac each_numeric_field H :=
  cbn in H; destruct H as [<-|[<-|[<-|[<-|[]]]]].

(** Decide the chain of tests that [requestBody_get] leaves for a known
    field name. *)
Ltac decide_field :=
  cbn [String.eqb Ascii.eqb Bool.eqb]; rewrite ?andb_false_r, ?andb_true_r.

(** A supplied number decides its field of either body. *)
Lemma numeric_field_url (defaults props : JsObj) (field : string) (x : JsNumber) :
  In field numeric_fields ->
  obj_get field props = Some (JNum x) ->
  obj_get field (UrlOnly.requestBody defaults (JObj props)) =
    if num_is_zero x then obj_get field (spread [] (JObj defaults)) else Some (JNum x).
Proof.
  intros Hin Hx. rewrite UrlFacts.url_requestBody_get.
  each_numeric_field Hin; rewrite (get_obj _ _ _ Hx); decide_field;
    cbn [truthy]; destruct (num_is_zero x); reflexivity.
Qed.

Lemma numeric_field_inline (defaults props : JsObj) (field : string) (x : JsNumber) :
  In field numeric_fields ->
  obj_get field props = Some (JNum x) ->
  obj_get field (Inline.requestBody defaults (JObj props)) =
    if num_is_zero x then obj_get field (spread [] (JObj defaults)) else Some (JNum x).
Proof.
  intros Hin Hx. rewrite InlineFacts.inline_requestBody_get.
  each_numeric_field Hin; rewrite (get_obj _ _ _ Hx); decide_field;
    cbn [truthy]; destruct (num_is_zero x); reflexivity.
Qed.

(** C2.  When the caller supplies a number for [width], [height], [steps] or
    [n], the body of the request holds that number if it is not zero and the
    configured default of the field if it is zero, in both servers. *)
Theorem C2_numeric_override `{Platform} (env : Env) (st_url st_inline : State)
    (this : UrlOnly.Server) (model : option string)
    (defaultConfig : loc) (server : Inline.Server)
    (request : Request) (props : JsObj) (p : string)
    (field : string) (x : JsNumber) :
  well_formed request props p ->
  heap st_url !! UrlOnly.defaultConfig this = Some (UrlOnly.defaultConfig_value model) ->
  heap st_inline !! defaultConfig = Some Inline.defaultConfig_value ->
  In field numeric_fields ->
  obj_get field props = Some (JNum x) ->
  (exists body,
     posted_bodies (events_of (run env (UrlOnly.callToolHandler this request) st_url))
       = [body]
     /\ obj_get field body =
          if num_is_zero x then obj_get field (UrlOnly.defaultConfig_value model)
          else Some (JNum x))
  /\ (exists body,
        posted_bodies (events_of
          (run env (Inline.callToolHandler defaultConfig server request) st_inline))
          = [body]
        /\ obj_get field body =
             if num_is_zero x then obj_get field Inline.defaultConfig_value
             else Some (JNum x)).
Proof.
  intros Hwf Hu Hi Hin Hx. split.
  - eexists. split; [apply (posted_url _ _ _ _ _ _ Hwf)|].
    rewrite (heap_read_lookup _ _ _ Hu), (numeric_field_url _ _ _ _ Hin Hx).
    destruct (num_is_zero x); [|reflexivity].
    each_numeric_field Hin; reflexivity.
  - eexists. split; [apply (posted_inline _ _ _ _ _ _ _ Hwf)|].
    rewrite (heap_read_lookup _ _ _ Hi), (numeric_field_inline _ _ _ _ Hin Hx).
    destruct (num_is_zero x); [|reflexivity].
    each_numeric_field Hin; reflexivity.
Qed.

(** [steps: 0] is answered with the default 1, [width: 512] is kept. *)
Lemma C2_numeric_override_witness :
  (exists body,
     posted_bodies (events_of
       (run (Examples.answering (inr (Examples.url_answer "https://img.example/1.png")))
          (@UrlOnly.callToolHandler Examples.posix Examples.url_server
             (generate [("prompt", JStr "a fox"); ("steps", JInt 0)]))
          Examples.booted)) = [body]
     /\ obj_get "steps" body = Some (JInt 1))
  /\ (exists body,
        posted_bodies (events_of
          (run (Examples.answering (inr (Examples.url_answer "https://img.example/1.png")))
             (@Inline.callToolHandler Examples.posix Examples.inline_defaultConfig
                Examples.inline_server
                (generate [("prompt", JStr "a fox"); ("steps", JInt 0)]))
             Examples.booted)) = [body]
        /\ obj_get "steps" body = Some (JInt 1)).
Proof.
  apply (@C2_numeric_override Examples.posix
           (Examples.answering (inr (Examples.url_answer "https://img.example/1.png")))
           Examples.booted Examples.booted Examples.url_server None
           Examples.inline_defaultConfig Examples.inline_server
           (generate [("prompt", JStr "a fox"); ("steps", JInt 0)])
           [("prompt", JStr "a fox"); ("steps", JInt 0)] "a fox"
           "steps" (num_of_Z 0)).
  - repeat split.
  - reflexivity.
  - reflexivity.
  - cbn. tauto.
  - reflexivity.
Defined.

(** C3, counterexample.  A caller asks for a width of 99999: the handler
    sends it on as it is, and the body fails the declared bound of [width].
    A caller gives the empty string as the prompt: the handler accepts it and
    sends it on, and the body fails the constraint of [prompt]. *)
Lemma C3_counterexample :
  (posted_bodies (events_of
     (run (Examples.answering (inr (Examples.url_answer "https://img.example/1.png")))
        (@UrlOnly.callToolHandler Examples.posix Examples.url_server
           (generate [("prompt", JStr "a fox"); ("width", JInt 99999)]))
        Examples.booted)) =
     [[("width", JInt 99999); ("height", JInt 768); ("steps", JInt 1); ("n", JInt 1);
       ("model", JStr "black-forest-labs/FLUX.1-schnell-Free");
       ("prompt", JStr "a fox"); ("response_format", JStr "url")]]
   /\ field_ok (UrlOnly.inputSchema "black-forest-labs/FLUX.1-schnell-Free")
        "width" (JInt 99999) = false
   /\ payload_ok (UrlOnly.inputSchema "black-forest-labs/FLUX.1-schnell-Free")
        [("width", JInt 99999); ("height", JInt 768); ("steps", JInt 1); ("n", JInt 1);
         ("model", JStr "black-forest-labs/FLUX.1-schnell-Free");
         ("prompt", JStr "a fox"); ("response_format", JStr "url")] = false)
  /\ (posted_bodies (events_of
        (run (Examples.answering (inr (Examples.url_answer "https://img.example/1.png")))
           (@Inline.callToolHandler Examples.posix Examples.inline_defaultConfig
              Examples.inline_server (generate [("prompt", JStr EmptyString)]))
           Examples.booted)) =
        [[("model", JStr "black-forest-labs/FLUX.1-schnell-Free");
          ("width", JInt 1024); ("height", JInt 768); ("steps", JInt 1); ("n", JInt 1);
          ("response_format", JStr "b64_json"); ("prompt", JStr EmptyString)]]
      /\ field_ok Inline.inputSchema "prompt" (JStr EmptyString) = false
      /\ payload_ok Inline.inputSchema
           [("model", JStr "black-forest-labs/FLUX.1-schnell-Free");
            ("width", JInt 1024); ("height", JInt 768); ("steps", JInt 1); ("n", JInt 1);
            ("response_format", JStr "b64_json"); ("prompt", JStr EmptyString)] = false).
Proof. repeat split; vm_compute; reflexivity. Qed.

(** The two schemas declare the same constraints for the constrained
    fields. *)
Lemma field_ok_url_inline (model : string) (field : string) (v : JsVal) :
  In field constrained_fields ->
  field_ok (UrlOnly.inputSchema model) field v = field_ok Inline.inputSchema field v.
Proof.
  intros Hin. cbn in Hin. destruct Hin as [<-|[<-|[<-|[<-|[<-|[]]]]]]; reflexivity.
Qed.

Lemma payload_ok_fields (schema : JsVal) (body : JsObj) :
  payload_ok schema body = true <->
  (forall field v, In field constrained_fields ->
     obj_get field body = Some v -> field_ok schema field v = true).
Proof.
  unfold payload_ok. rewrite forallb_forall. split.
  - intros Hok field v Hin Hv. specialize (Hok field Hin). rewrite Hv in Hok. exact Hok.
  - intros Hok field Hin.
    destruct (obj_get field body) as [v|] eqn:E; [|reflexivity].
    exact (Hok field v Hin E).
Qed.

Lemma prompt_ok (p : string) :
  field_ok Inline.inputSchema "prompt" (JStr p) = true <-> p <> EmptyString.
Proof.
  cbn. destruct (String.eqb p EmptyString) eqn:E.
  - apply String.eqb_eq in E. split; [discriminate|]. intros Hp. contradiction.
  - apply String.eqb_neq in E. split; [intros _; exact E|reflexivity].
Qed.

(** A body that holds the caller's prompt, and for each numeric field the
    caller's value when truthy and a default that meets its constraint
    otherwise, meets the constraints exactly when what the caller supplied
    does. *)
Lemma payload_ok_supplied (schema : JsVal) (body defaults props : JsObj) (p : string) :
  (forall field v, In field constrained_fields ->
     field_ok schema field v = field_ok Inline.inputSchema field v) ->
  obj_get "prompt" body = Some (JStr p) ->
  (forall field, In field numeric_fields ->
     obj_get field body =
       if truthy (get (JObj props) field) then Some (get (JObj props) field)
       else obj_get field defaults) ->
  (forall field, In field numeric_fields ->
     exists d, obj_get field defaults = Some d /\ field_ok schema field d = true) ->
  payload_ok schema body = true <->
  p <> EmptyString
  /\ forall field, In field numeric_fields ->
       truthy (get (JObj props) field) = true ->
       field_ok schema field (get (JObj props) field) = true.
Proof.
  intros Hschema Hprompt Hnum Hdef. rewrite payload_ok_fields. split.
  - intros Hok. split.
    + apply prompt_ok. rewrite <- Hschema by (left; reflexivity).
      apply Hok; [left; reflexivity|exact Hprompt].
    + intros field Hin Ht. apply Hok; [right; exact Hin|].
      rewrite (Hnum field Hin), Ht. reflexivity.
  - intros [Hp Hsupplied] field v Hin Hv. destruct Hin as [<-|Hin].
    + rewrite Hprompt in Hv. injection Hv as <-.
      rewrite Hschema by (left; reflexivity). apply prompt_ok, Hp.
    + rewrite (Hnum field Hin) in Hv.
      destruct (truthy (get (JObj props) field)) eqn:T.
      * injection Hv as <-. apply Hsupplied; assumption.
      * destruct (Hdef field Hin) as (d & Hd & Hok). rewrite Hd in Hv.
        injection Hv as <-. exact Hok.
Qed.

(** C3, amended.  The handler forwards what the caller supplied and fills
    in the rest, whatever the values are: in the body sent, [prompt] is the
    caller's text and each of [width], [height], [steps] and [n] is the
    caller's value when that value is truthy and the configured default
    otherwise, and each default meets its constraint.  Nothing is checked or
    clamped on the way, so the body meets the declared constraints exactly
    when the prompt is not empty and each truthy value supplied for a numeric
    field meets the constraint of that field. *)
Theorem C3_payload_constraints `{Platform} (env : Env) (st_url st_inline : State)
    (this : UrlOnly.Server) (model : option string)
    (defaultConfig : loc) (server : Inline.Server)
    (request : Request) (props : JsObj) (p : string) :
  well_formed request props p ->
  heap st_url !! UrlOnly.defaultConfig this = Some (UrlOnly.defaultConfig_value model) ->
  heap st_inline !! defaultConfig = Some Inline.defaultConfig_value ->
  forall schema_model : string,
  (exists body,
     posted_bodies (events_of (run env (UrlOnly.callToolHandler this request) st_url))
       = [body]
     /\ obj_get "prompt" body = Some (JStr p)
     /\ (forall field, In field numeric_fields ->
           obj_get field body =
             if truthy (get (JObj props) field) then Some (get (JObj props) field)
             else obj_get field (UrlOnly.defaultConfig_value model))
     /\ (forall field, In field numeric_fields ->
           exists d, obj_get field (UrlOnly.defaultConfig_value model) = Some d
                     /\ field_ok (UrlOnly.inputSchema schema_model) field d = true)
     /\ (payload_ok (UrlOnly.inputSchema schema_model) body = true <->
         p <> EmptyString
         /\ forall field, In field numeric_fields ->
              truthy (get (JObj props) field) = true ->
              field_ok (UrlOnly.inputSchema schema_model) field (get (JObj props) field)
                = true))
  /\ (exists body,
        posted_bodies (events_of
          (run env (Inline.callToolHandler defaultConfig server request) st_inline))
          = [body]
        /\ obj_get "prompt" body = Some (JStr p)
        /\ (forall field, In field numeric_fields ->
              obj_get field body =
                if truthy (get (JObj props) field) then Some (get (JObj props) field)
                else obj_get field Inline.defaultConfig_value)
        /\ (forall field, In field numeric_fields ->
              exists d, obj_get field Inline.defaultConfig_value = Some d
                        /\ field_ok Inline.inputSchema field d = true)
        /\ (payload_ok Inline.inputSchema body = true <->
            p <> EmptyString
            /\ forall field, In field numeric_fields ->
                 truthy (get (JObj props) field) = true ->
                 field_ok Inline.inputSchema field (get (JObj props) field) = true)).
Proof.
  intros Hwf Hu Hi schema_model.
  pose proof Hwf as (_ & _ & Hprompt).
  assert (Hnum_u : forall field, In field numeric_fields ->
            obj_get field (UrlOnly.requestBody (UrlOnly.defaultConfig_value model) (JObj props)) =
              if truthy (get (JObj props) field) then Some (get (JObj props) field)
              else obj_get field (UrlOnly.defaultConfig_value model)).
  { intros field Hin. rewrite UrlFacts.url_requestBody_get.
    each_numeric_field Hin; decide_field;
      destruct (truthy (get (JObj props) _)); reflexivity. }
  assert (Hnum_i : forall field, In field numeric_fields ->
            obj_get field (Inline.requestBody Inline.defaultConfig_value (JObj props)) =
              if truthy (get (JObj props) field) then Some (get (JObj props) field)
              else obj_get field Inline.defaultConfig_value).
  { intros field Hin. rewrite InlineFacts.inline_requestBody_get.
    each_numeric_field Hin; decide_field;
      destruct (truthy (get (JObj props) _)); reflexivity. }
  assert (Hprompt_u :
            obj_get "prompt" (UrlOnly.requestBody (UrlOnly.defaultConfig_value model) (JObj props))
              = Some (JStr p)).
  { rewrite UrlFacts.url_requestBody_get. decide_field.
    rewrite (get_obj _ _ _ Hprompt). reflexivity. }
  assert (Hprompt_i :
            obj_get "prompt" (Inline.requestBody Inline.defaultConfig_value (JObj props))
              = Some (JStr p)).
  { rewrite InlineFacts.inline_requestBody_get. decide_field.
    rewrite (get_obj _ _ _ Hprompt). reflexivity. }
  assert (Hdef_u : forall field, In field numeric_fields ->
            exists d, obj_get field (UrlOnly.defaultConfig_value model) = Some d
                      /\ field_ok (UrlOnly.inputSchema schema_model) field d = true).
  { intros field Hin. each_numeric_field Hin; eexists; split; reflexivity. }
  assert (Hdef_i : forall field, In field numeric_fields ->
            exists d, obj_get field Inline.defaultConfig_value = Some d
                      /\ field_ok Inline.inputSchema field d = true).
  { intros field Hin. each_numeric_field Hin; eexists; split; reflexivity. }
  split.
  - eexists. split; [apply (posted_url _ _ _ _ _ _ Hwf)|].
    rewrite (heap_read_lookup _ _ _ Hu).
    split; [exact Hprompt_u|]. split; [exact Hnum_u|]. split; [exact Hdef_u|].
    apply (payload_ok_supplied _ _ (UrlOnly.defaultConfig_value model)).
    + intros field v Hin. apply field_ok_url_inline, Hin.
    + exact Hprompt_u.
    + exact Hnum_u.
    + exact Hdef_u.
  - eexists. split; [apply (posted_inline _ _ _ _ _ _ _ Hwf)|].
    rewrite (heap_read_lookup _ _ _ Hi).
    split; [exact Hprompt_i|]. split; [exact Hnum_i|]. split; [exact Hdef_i|].
    apply (payload_ok_supplied _ _ Inline.defaultConfig_value).
    + reflexivity.
    + exact Hprompt_i.
    + exact Hnum_i.
    + exact Hdef_i.
Qed.

(** A width of 512 goes out and the body meets the constraints; a width of
    99999 goes out as well and the body does not. *)
Lemma C3_payload_constraints_witness :
  (exists body,
     posted_bodies (events_of
       (run (Examples.answering (inr (Examples.url_answer "https://img.example/1.png")))
          (@Inline.callToolHandler Examples.posix Examples.inline_defaultConfig
             Examples.inline_server
             (generate [("prompt", JStr "a fox"); ("width", JInt 512)]))
          Examples.booted)) = [body]
     /\ payload_ok Inline.inputSchema body = true
     /\ obj_get "width" body = Some (JInt 512)
     /\ obj_get "height" body = Some (JInt 768))
  /\ (exists body,
        posted_bodies (events_of
          (run (Examples.answering (inr (Examples.url_answer "https://img.example/1.png")))
             (@Inline.callToolHandler Examples.posix Examples.inline_defaultConfig
                Examples.inline_server
                (generate [("prompt", JStr "a fox"); ("width", JInt 99999)]))
             Examples.booted)) = [body]
        /\ payload_ok Inline.inputSchema body <> true
        /\ obj_get "width" body = Some (JInt 99999)).
Proof.
  split.
  - destruct (@C3_payload_constraints Examples.posix
                (Examples.answering (inr (Examples.url_answer "https://img.example/1.png")))
                Examples.booted Examples.booted Examples.url_server None
                Examples.inline_defaultConfig Examples.inline_server
                (generate [("prompt", JStr "a fox"); ("width", JInt 512)])
                [("prompt", JStr "a fox"); ("width", JInt 512)] "a fox")
      with "black-forest-labs/FLUX.1-schnell-Free"
      as [_ (body & Hposted & _ & Hfields & _ & Hok)].
    + unfold well_formed. simpl. repeat split; reflexivity.
    + reflexivity.
    + reflexivity.
    + exists body. split; [exact Hposted|]. split; [|split].
      * apply Hok. split; [discriminate|].
        intros field [<-|[<-|[<-|[<-|[]]]]]; simpl; intros Ht;
          first [reflexivity | discriminate].
      * apply (Hfields "width"). simpl. left. reflexivity.
      * apply (Hfields "height"). simpl. right. left. reflexivity.
  - destruct (@C3_payload_constraints Examples.posix
                (Examples.answering (inr (Examples.url_answer "https://img.example/1.png")))
                Examples.booted Examples.booted Examples.url_server None
                Examples.inline_defaultConfig Examples.inline_server
                (generate [("prompt", JStr "a fox"); ("width", JInt 99999)])
                [("prompt", JStr "a fox"); ("width", JInt 99999)] "a fox")
      with "black-forest-labs/FLUX.1-schnell-Free"
      as [_ (body & Hposted & _ & Hfields & _ & Hok)].
    + unfold well_formed. simpl. repeat split; reflexivity.
    + reflexivity.
    + reflexivity.
    + exists body. split; [exact Hposted|]. split.
      * intros Hbody. apply Hok in Hbody. destruct Hbody as [_ Hsupplied].
        specialize (Hsupplied "width" ltac:(simpl; left; reflexivity) eq_refl).
        discriminate Hsupplied.
      * apply (Hfields "width"). simpl. left. reflexivity.
Defined.

(** The arguments a handler accepts are exactly the objects with a string
    [prompt]. *)
Lemma acceptable_spec (args : JsVal) :
  acceptable args = true <->
  exists props p, args = JObj props /\ obj_get "prompt" props = Some (JStr p).
Proof.
  split; [apply acceptable_inv|].
  intros (props & p & -> & Hp). cbn. rewrite Hp. reflexivity.
Qed.

(** C4.  A call of [generate_image] whose arguments are absent, are not an
    object, lack [prompt] or hold a [prompt] that is not a string throws an
    invalid-params [McpError] before any effect: the program is the throw
    itself, so running it sends no request, writes no file and leaves the
    state as it was.  When the arguments are an object the message names the
    prompt. *)
Theorem C4_invalid_arguments `{Platform} (this : UrlOnly.Server)
    (defaultConfig : loc) (server : Inline.Server) (request : Request) :
  name request = "generate_image" ->
  acceptable (arguments request) = false ->
  exists message,
    UrlOnly.callToolHandler this request = Throw (McpError InvalidParams message)
    /\ Inline.callToolHandler defaultConfig server request
         = Throw (McpError InvalidParams message)
    /\ (forall env st,
          run env (UrlOnly.callToolHandler this request) st
            = (Threw (McpError InvalidParams message), [], st))
    /\ (forall env st,
          run env (Inline.callToolHandler defaultConfig server request) st
            = (Threw (McpError InvalidParams message), [], st))
    /\ (forall props, arguments request = JObj props ->
          message = "Prompt is required and must be a string")
    /\ (arguments request = JUndefined -> message = "Invalid arguments provided").
Proof.
  intros Hn Hacc. exists (invalid_params_message (arguments request)).
  pose proof (UrlFacts.url_invalid_arguments this request Hn Hacc) as Hu.
  pose proof (InlineFacts.inline_invalid_arguments defaultConfig server request Hn Hacc) as Hi.
  repeat split.
  - exact Hu.
  - exact Hi.
  - intros env st. rewrite Hu. reflexivity.
  - intros env st. rewrite Hi. reflexivity.
  - intros props ->. reflexivity.
  - intros ->. reflexivity.
Qed.

(** A [prompt] that is a number. *)
Lemma C4_invalid_arguments_witness :
  exists message,
    @UrlOnly.callToolHandler Examples.posix Examples.url_server
      (generate [("prompt", JInt 42)]) = Throw (McpError InvalidParams message)
    /\ message = "Prompt is required and must be a string".
Proof.
  destruct (@C4_invalid_arguments Examples.posix Examples.url_server
              Examples.inline_defaultConfig Examples.inline_server
              (generate [("prompt", JInt 42)]))
    as (message & Hu & _ & _ & _ & Hprompt & _).
  - reflexivity.
  - reflexivity.
  - exists message. split; [exact Hu|]. apply (Hprompt [("prompt", JInt 42)]). reflexivity.
Defined.

(** C5.  A call whose tool name is not [generate_image] throws a
    method-not-found [McpError] that names the tool, before any effect:
    running it sends no request. *)
Theorem C5_unknown_tool `{Platform} (this : UrlOnly.Server)
    (defaultConfig : loc) (server : Inline.Server) (request : Request) :
  name request <> "generate_image" ->
  let error := McpError MethodNotFound ("Unknown tool: " ++ name request) in
  UrlOnly.callToolHandler this request = Throw error
  /\ Inline.callToolHandler defaultConfig server request = Throw error
  /\ (forall env st,
        run env (UrlOnly.callToolHandler this request) st = (Threw error, [], st))
  /\ (forall env st,
        run env (Inline.callToolHandler defaultConfig server request) st
          = (Threw error, [], st)).
Proof.
  intros Hn error.
  pose proof (UrlFacts.url_unknown_tool this request Hn) as Hu.
  pose proof (InlineFacts.inline_unknown_tool defaultConfig server request Hn) as Hi.
  repeat split.
  - exact Hu.
  - exact Hi.
  - intros env st. rewrite Hu. reflexivity.
  - intros env st. rewrite Hi. reflexivity.
Qed.

Lemma C5_unknown_tool_witness :
  @UrlOnly.callToolHandler Examples.posix Examples.url_server
    {| name := "resize_image"; arguments := JObj [("prompt", JStr "a fox")] |}
    = Throw (McpError MethodNotFound "Unknown tool: resize_image").
Proof.
  apply (@C5_unknown_tool Examples.posix Examples.url_server
           Examples.inline_defaultConfig Examples.inline_server
           {| name := "resize_image"; arguments := JObj [("prompt", JStr "a fox")] |}).
  simpl. discriminate.
Defined.

(** The URL-only handler reads [prompt], [model], [width], [height], [steps]
    and [n] of the arguments, nothing else: an [image_path] changes neither
    the validation nor the body. *)
Lemma requestBody_image_path (defaults props : JsObj) (image_path : JsVal) :
  UrlOnly.requestBody defaults (JObj (obj_set "image_path" image_path props)) =
  UrlOnly.requestBody defaults (JObj props).
Proof.
  unfold UrlOnly.requestBody. rewrite !get_obj_set_ne by discriminate. reflexivity.
Qed.

Lemma image_path_ignored `{Platform} (this : UrlOnly.Server) (tool : string)
    (props : JsObj) (image_path : JsVal) (env : Env) (st : State) :
  run env (UrlOnly.callToolHandler this
             {| name := tool; arguments := JObj (obj_set "image_path" image_path props) |}) st
  = run env (UrlOnly.callToolHandler this {| name := tool; arguments := JObj props |}) st.
Proof.
  unfold UrlOnly.callToolHandler. cbn [name arguments].
  destruct (negb (String.eqb tool "generate_image")); [reflexivity|].
  cbn [truthy typeof negb orb String.eqb Ascii.eqb Bool.eqb has_property].
  rewrite get_obj_set_ne by discriminate.
  rewrite obj_get_set_ne by discriminate.
  destruct (_ || _); [reflexivity|].
  cbn -[UrlOnly.requestBody]. rewrite !requestBody_image_path. reflexivity.
Qed.

(** C6.  In the URL-only server the body of the request always holds
    [response_format] "url", whatever the arguments hold under that name,
    and an [image_path] among the arguments changes nothing: the outcome,
    the requests sent and the final state are those of the call without it,
    and no file is written. *)
Theorem C6_url_forced `{Platform} (env : Env) (st : State) (this : UrlOnly.Server)
    (request : Request) (props : JsObj) (p : string) (image_path : JsVal) :
  well_formed request props p ->
  (exists body,
     posted_bodies (events_of (run env (UrlOnly.callToolHandler this request) st))
       = [body]
     /\ obj_get "response_format" body = Some (JStr "url"))
  /\ run env (UrlOnly.callToolHandler this
                (generate (obj_set "image_path" image_path props))) st
     = run env (UrlOnly.callToolHandler this request) st
  /\ written (events_of (run env (UrlOnly.callToolHandler this request) st)) = []
  /\ files (state_of (run env (UrlOnly.callToolHandler this request) st)) = files st.
Proof.
  intros Hwf. split; [|split; [|split]].
  - eexists. split; [apply (posted_url _ _ _ _ _ _ Hwf)|].
    rewrite UrlFacts.url_requestBody_get. reflexivity.
  - destruct request as [tool args]. destruct Hwf as (Hn & Ha & _).
    cbn in Hn, Ha. subst tool args. apply image_path_ignored.
  - rewrite (UrlFacts.url_run_valid _ _ _ _ _ _ Hwf). reflexivity.
  - rewrite (UrlFacts.url_run_valid _ _ _ _ _ _ Hwf). reflexivity.
Qed.

(** The caller asks for [b64_json] and a file; the request still says
    "url". *)
Lemma C6_url_forced_witness :
  exists body,
    posted_bodies (events_of
      (run (Examples.answering (inr (Examples.url_answer "https://img.example/1.png")))
         (@UrlOnly.callToolHandler Examples.posix Examples.url_server
            (generate [("prompt", JStr "a fox"); ("response_format", JStr "b64_json")]))
         Examples.booted)) = [body]
    /\ obj_get "response_format" body = Some (JStr "url").
Proof.
  apply (@C6_url_forced Examples.posix
           (Examples.answering (inr (Examples.url_answer "https://img.example/1.png")))
           Examples.booted Examples.url_server
           (generate [("prompt", JStr "a fox"); ("response_format", JStr "b64_json")])
           [("prompt", JStr "a fox"); ("response_format", JStr "b64_json")]
           "a fox" (JStr "/tmp/fox.png")).
  unfold well_formed. simpl. repeat split; reflexivity.
Defined.




















(** The body object is new, so neither creating it nor what the HTTP client
    does to it reaches an object that existed before. *)
Lemma lookup_after_post (h : gmap loc JsObj) (l : loc) (body touched : JsObj) :
  is_Some (h !! l) ->
  <[fresh (dom h) := touched]> (<[fresh (dom h) := body]> h) !! l = h !! l.
Proof.
  intros Hl.
  assert (Hne : fresh (dom h) <> l).
  { intros Heq. apply (is_fresh (dom h)). rewrite Heq. apply elem_of_dom. exact Hl. }
  rewrite !lookup_insert_ne by exact Hne. reflexivity.
Qed.

Lemma heap_read_same (st st' : State) (l : loc) :
  heap st' !! l = heap st !! l -> heap_read st' l = heap_read st l.
Proof. unfold heap_read. intros ->. reflexivity. Qed.

Lemma url_frame `{Platform} env st this request :
  is_Some (heap st !! UrlOnly.defaultConfig this) ->
  heap (state_of (run env (UrlOnly.callToolHandler this request) st))
    !! UrlOnly.defaultConfig this = heap st !! UrlOnly.defaultConfig this.
Proof.
  intros Hl. destruct (UrlFacts.url_handler_cases this request) as [[e He]|(props & p & Hwf)].
  - rewrite He. reflexivity.
  - rewrite (UrlFacts.url_run_valid _ _ _ _ _ _ Hwf). cbn [state_of snd heap].
    apply lookup_after_post, Hl.
Qed.

Lemma url_repeat `{Platform} env1 env2 st st' this request :
  heap st' !! UrlOnly.defaultConfig this = heap st !! UrlOnly.defaultConfig this ->
  requests_sent (events_of (run env2 (UrlOnly.callToolHandler this request) st'))
  = requests_sent (events_of (run env1 (UrlOnly.callToolHandler this request) st)).
Proof.
  intros Hsame.
  destruct (UrlFacts.url_handler_cases this request) as [[e He]|(props & p & Hwf)].
  - rewrite He. reflexivity.
  - rewrite !(UrlFacts.url_run_valid _ _ _ _ _ _ Hwf).
    cbn [events_of fst snd requests_sent flat_map app].
    rewrite (heap_read_same _ _ _ Hsame). reflexivity.
Qed.

Lemma inline_frame `{Platform} env st l server request :
  is_Some (heap st !! l) ->
  heap (state_of (run env (Inline.callToolHandler l server request) st)) !! l
    = heap st !! l.
Proof.
  intros Hl.
  destruct (InlineFacts.inline_handler_cases l server request) as [[e He]|(props & p & Hwf)].
  - rewrite He. reflexivity.
  - rewrite (InlineFacts.heap_valid _ _ _ _ _ _ _ Hwf). cbv zeta.
    apply lookup_after_post, Hl.
Qed.

Lemma inline_repeat `{Platform} env1 env2 st st' l server request :
  heap st' !! l = heap st !! l ->
  requests_sent (events_of (run env2 (Inline.callToolHandler l server request) st'))
  = requests_sent (events_of (run env1 (Inline.callToolHandler l server request) st)).
Proof.
  intros Hsame.
  destruct (InlineFacts.inline_handler_cases l server request) as [[e He]|(props & p & Hwf)].
  - rewrite He. reflexivity.
  - rewrite !(InlineFacts.requests_valid _ _ _ _ _ _ _ Hwf).
    rewrite (heap_read_same _ _ _ Hsame). reflexivity.
Qed.

(** C10.  Handling a call leaves the configuration as it was.  The handler
    assigns to no field of the server; the [defaultConfig] object is only
    read, the body is a new object, and whatever the HTTP client does to the
    body does not reach the defaults.  So after any call, in any world, the
    defaults are unchanged, and a second call with the same request, in any
    world, sends the same requests: same address, same body, same
    headers. *)
Theorem C10_configuration_unchanged `{Platform} (env1 env2 : Env)
    (st_url st_inline : State) (this : UrlOnly.Server)
    (defaultConfig : loc) (server : Inline.Server) (request : Request) :
  is_Some (heap st_url !! UrlOnly.defaultConfig this) ->
  is_Some (heap st_inline !! defaultConfig) ->
  let first_url := run env1 (UrlOnly.callToolHandler this request) st_url in
  let second_url := run env2 (UrlOnly.callToolHandler this request) (state_of first_url) in
  let first_inline :=
    run env1 (Inline.callToolHandler defaultConfig server request) st_inline in
  let second_inline :=
    run env2 (Inline.callToolHandler defaultConfig server request) (state_of first_inline) in
  (heap (state_of first_url) !! UrlOnly.defaultConfig this
     = heap st_url !! UrlOnly.defaultConfig this
   /\ heap (state_of second_url) !! UrlOnly.defaultConfig this
        = heap st_url !! UrlOnly.defaultConfig this
   /\ requests_sent (events_of second_url) = requests_sent (events_of first_url))
  /\ (heap (state_of first_inline) !! defaultConfig = heap st_inline !! defaultConfig
      /\ heap (state_of second_inline) !! defaultConfig = heap st_inline !! defaultConfig
      /\ requests_sent (events_of second_inline) = requests_sent (events_of first_inline)).
Proof.
  intros Hu Hi first_url second_url first_inline second_inline.
  pose proof (url_frame env1 st_url this request Hu) as Hu1.
  pose proof (inline_frame env1 st_inline defaultConfig server request Hi) as Hi1.
  fold first_url in Hu1. fold first_inline in Hi1.
  split; (split; [assumption|split]).
  - unfold second_url. rewrite url_frame; [exact Hu1|]. rewrite Hu1. exact Hu.
  - apply url_repeat. exact Hu1.
  - unfold second_inline. rewrite inline_frame; [exact Hi1|]. rewrite Hi1. exact Hi.
  - apply inline_repeat. exact Hi1.
Qed.

(** Two calls in a row, the first against a client that empties the body it
    was handed. *)
Lemma C10_configuration_unchanged_witness :
  heap (state_of
    (run {| downstream := fun _ _ _ => inr (Examples.url_answer "https://img.example/1.png");
            client_touch := fun _ => [];
            write_fault := fun _ _ => None |}
       (@UrlOnly.callToolHandler Examples.posix Examples.url_server
          (generate [("prompt", JStr "a fox"); ("width", JInt 512)]))
       Examples.booted)) !! 0%nat
  = heap Examples.booted !! 0%nat.
Proof.
  apply (@C10_configuration_unchanged Examples.posix
           {| downstream := fun _ _ _ => inr (Examples.url_answer "https://img.example/1.png");
              client_touch := fun _ => [];
              write_fault := fun _ _ => None |}
           (Examples.answering (inl (OtherError "socket hang up")))
           Examples.booted Examples.booted Examples.url_server
           Examples.inline_defaultConfig Examples.inline_server
           (generate [("prompt", JStr "a fox"); ("width", JInt 512)])).
  - vm_compute. eexists. reflexivity.
  - vm_compute. eexists. reflexivity.
Defined.

(** * Further properties *)

(** ** The command line *)
Module StartupFacts.
Import Js Effects Protocol Terms MoreTerms ObjFacts RunFacts Startup.

(** The loop is the scan of the rest of the list, and the turns it is given
    are enough. *)
Lemma parse_loop_fuel (fuel : nat) (args : list string) (i : nat)
    (parsed : gmap string string) :
  (length args - i <= fuel)%nat ->
  parse_loop fuel args i parsed = parse_from (drop i args) parsed.
Proof.
  revert i parsed. induction fuel as [|fuel IH]; intros i parsed Hfuel.
  - cbn. rewrite drop_ge by lia. reflexivity.
  - cbn [parse_loop]. destruct (Nat.ltb_spec i (length args)) as [Hi|Hi].
    + destruct (lookup_lt_is_Some_2 args i Hi) as [a Ha].
      rewrite (drop_S _ _ _ Ha). unfold arg at 1. rewrite Ha. cbn [parse_from].
      destruct (String.eqb a "-e"); cbn [andb].
      * destruct (Nat.ltb_spec (i + 2) (length args)) as [Hi2|Hi2].
        -- destruct (lookup_lt_is_Some_2 args (i + 1) ltac:(lia)) as [k Hk].
           destruct (lookup_lt_is_Some_2 args (i + 2) ltac:(lia)) as [v Hv].
           replace (S i) with (i + 1)%nat by lia.
           rewrite (drop_S _ _ _ Hk). replace (S (i + 1)) with (i + 2)%nat by lia.
           rewrite (drop_S _ _ _ Hv). unfold arg. rewrite Hk, Hv.
           replace (S (i + 2)) with (i + 2 + 1)%nat by lia.
           apply IH. lia.
        -- rewrite IH by lia. replace (i + 1)%nat with (S i) by lia.
           destruct (drop (S i) args) as [|k [|v rest]] eqn:Hd; try reflexivity.
           exfalso. apply (f_equal length) in Hd. rewrite length_drop in Hd.
           cbn in Hd. lia.
      * rewrite IH by lia. replace (i + 1)%nat with (S i) by lia. reflexivity.
    + rewrite drop_ge by lia. reflexivity.
Qed.

Lemma parseCliArgs_scan (argv : list string) :
  parseCliArgs argv = parse_from (drop 2 argv) ∅.
Proof.
  unfold parseCliArgs. cbv zeta. rewrite parse_loop_fuel by lia.
  rewrite drop_0. reflexivity.
Qed.

Lemma parse_from_triples (bindings : list (string * string)) (rest : list string)
    (parsed : gmap string string) :
  parse_from (triples bindings ++ rest) parsed =
  parse_from rest (fold_left (fun m kv => assign (fst kv) (snd kv) m) bindings parsed).
Proof.
  revert parsed. induction bindings as [|[k v] bindings IH]; intros parsed.
  - reflexivity.
  - cbn. apply IH.
Qed.

Lemma parse_from_short (tail : list string) (parsed : gmap string string) :
  (length tail <= 2)%nat -> parse_from tail parsed = parsed.
Proof.
  destruct tail as [|a [|b [|c tail]]]; cbn; intros Hlen; try lia.
  - reflexivity.
  - destruct (String.eqb a "-e"); reflexivity.
  - destruct (String.eqb a "-e"), (String.eqb b "-e"); reflexivity.
Qed.

Lemma parseCliArgs_triples (node script : string)
    (bindings : list (string * string)) (tail : list string) :
  (length tail <= 2)%nat ->
  parseCliArgs (node :: script :: triples bindings ++ tail) =
  fold_left (fun m kv => assign (fst kv) (snd kv) m) bindings ∅.
Proof.
  intros Hlen. rewrite parseCliArgs_scan.
  replace (drop 2 (node :: script :: triples bindings ++ tail))
    with (triples bindings ++ tail)%list by reflexivity.
  rewrite parse_from_triples. apply parse_from_short, Hlen.
Qed.

Lemma assign_lookup (k v k' : string) (m : gmap string string) :
  assign k v m !! k' =
    if String.eqb k "__proto__" then m !! k'
    else if String.eqb k k' then Some v else m !! k'.
Proof.
  unfold assign. destruct (String.eqb k "__proto__"); [reflexivity|].
  destruct (String.eqb_spec k k') as [->|Hne].
  - apply lookup_insert_eq.
  - apply lookup_insert_ne, Hne.
Qed.

(** Where a binding of the scan comes from. *)
Lemma parse_from_sound (n : nat) (rest : list string) (parsed : gmap string string)
    (k v : string) :
  (length rest <= n)%nat ->
  parse_from rest parsed !! k = Some v ->
  parsed !! k = Some v
  \/ (k <> "__proto__"
      /\ exists j, rest !! j = Some "-e" /\ rest !! (j + 1)%nat = Some k
                   /\ rest !! (j + 2)%nat = Some v).
Proof.
  revert rest parsed. induction n as [|n IH]; intros rest parsed Hlen Hget.
  - destruct rest; [left; exact Hget|cbn in Hlen; lia].
  - destruct rest as [|a rest]; [left; exact Hget|].
    cbn in Hlen. cbn [parse_from] in Hget.
    assert (Hskip : parse_from rest parsed !! k = Some v ->
              parsed !! k = Some v
              \/ (k <> "__proto__"
                  /\ exists j, (a :: rest) !! j = Some "-e"
                     /\ (a :: rest) !! (j + 1)%nat = Some k
                     /\ (a :: rest) !! (j + 2)%nat = Some v)).
    { intros H. destruct (IH rest parsed ltac:(lia) H) as [Hp|(Hk & j & H0 & H1 & H2)].
      - left. exact Hp.
      - right. split; [exact Hk|]. exists (S j). repeat split; assumption. }
    destruct (String.eqb_spec a "-e") as [->|Ha]; [|apply Hskip, Hget].
    destruct rest as [|key [|value rest]]; try (apply Hskip, Hget).
    cbn in Hlen.
    destruct (IH rest (assign key value parsed) ltac:(lia) Hget)
      as [Hp|(Hk & j & H0 & H1 & H2)].
    + rewrite assign_lookup in Hp.
      destruct (String.eqb_spec key "__proto__") as [Hproto|Hproto]; [left; exact Hp|].
      destruct (String.eqb_spec key k) as [->|Hne]; [|left; exact Hp].
      injection Hp as <-. right. split; [exact Hproto|].
      exists 0%nat. repeat split.
    + right. split; [exact Hk|]. exists (S (S (S j))). repeat split; assumption.
Qed.

End StartupFacts.

Import Startup MoreTerms StartupFacts.

(** A binding [-e KEY VALUE] added at the end of a command line of such
    bindings decides [KEY] and leaves every other key as it was; up to two
    further words after it (such as a lone [-e KEY]) bind nothing. *)
Theorem parseCliArgs_last_binding (node script : string)
    (bindings : list (string * string)) (k v : string) (tail : list string) :
  (length tail <= 2)%nat ->
  k <> "__proto__" ->
  parseCliArgs (node :: script :: triples (bindings ++ [(k, v)]) ++ tail) !! k = Some v
  /\ forall k', k' <> k ->
       parseCliArgs (node :: script :: triples (bindings ++ [(k, v)]) ++ tail) !! k'
       = parseCliArgs (node :: script :: triples bindings) !! k'.
Proof.
  intros Hlen Hk.
  rewrite (parseCliArgs_triples node script (bindings ++ [(k, v)]) tail Hlen).
  pose proof (parseCliArgs_triples node script bindings [] ltac:(cbn; lia)) as Hb.
  rewrite app_nil_r in Hb. rewrite Hb.
  rewrite fold_left_app. cbn [fold_left fst snd].
  apply String.eqb_neq in Hk. split.
  - rewrite assign_lookup, Hk, String.eqb_refl. reflexivity.
  - intros k' Hne. rewrite assign_lookup, Hk.
    destruct (String.eqb_spec k k') as [->|_]; [contradiction|reflexivity].
Qed.

Lemma parseCliArgs_last_binding_witness :
  parseCliArgs ["node"; "index.js"; "-e"; "DEFAULT_MODEL"; "a"; "-e"; "DEFAULT_MODEL"; "b";
                "-e"; "OPENAI_API_URL"] !! "DEFAULT_MODEL" = Some "b".
Proof.
  apply (parseCliArgs_last_binding "node" "index.js" [("DEFAULT_MODEL", "a")]
           "DEFAULT_MODEL" "b" ["-e"; "OPENAI_API_URL"]).
  - simpl. lia.
  - discriminate.
Defined.

(** Whatever [parseCliArgs] binds stands in [process.argv], after the first
    two words, as [-e KEY VALUE]; and it never binds [__proto__]. *)
Theorem parseCliArgs_sound (argv : list string) (k v : string) :
  parseCliArgs argv !! k = Some v ->
  k <> "__proto__"
  /\ exists i, (2 <= i)%nat /\ argv !! i = Some "-e"
               /\ argv !! (i + 1)%nat = Some k /\ argv !! (i + 2)%nat = Some v.
Proof.
  rewrite parseCliArgs_scan. intros Hget.
  destruct (parse_from_sound (length (drop 2 argv)) (drop 2 argv) ∅ k v
              ltac:(lia) Hget) as [Hempty|(Hk & j & H0 & H1 & H2)].
  - rewrite lookup_empty in Hempty. discriminate.
  - split; [exact Hk|]. exists (2 + j)%nat.
    rewrite lookup_drop in H0, H1, H2.
    replace (2 + j + 1)%nat with (2 + (j + 1))%nat by lia.
    replace (2 + j + 2)%nat with (2 + (j + 2))%nat by lia.
    repeat split; [lia|assumption..].
Qed.

Lemma parseCliArgs_sound_witness :
  "OPENAI_API_KEY" <> "__proto__"
  /\ exists i, (2 <= i)%nat
       /\ ["node"; "index.js"; "--verbose"; "-e"; "OPENAI_API_KEY"; "sk-1"] !! i = Some "-e"
       /\ ["node"; "index.js"; "--verbose"; "-e"; "OPENAI_API_KEY"; "sk-1"] !! (i + 1)%nat
          = Some "OPENAI_API_KEY"
       /\ ["node"; "index.js"; "--verbose"; "-e"; "OPENAI_API_KEY"; "sk-1"] !! (i + 2)%nat
          = Some "sk-1".
Proof.
  apply (parseCliArgs_sound
           ["node"; "index.js"; "--verbose"; "-e"; "OPENAI_API_KEY"; "sk-1"]
           "OPENAI_API_KEY" "sk-1").
  vm_compute. reflexivity.
Defined.

(** ** Start-up *)

Lemma run_url_main (env : Env) (st : State) (argv : list string)
    (penv : gmap string string) :
  run env (url_main argv penv) st =
    match setting (parseCliArgs argv) penv "OPENAI_API_KEY" with
    | Some key =>
        if String.eqb key EmptyString then
          (Threw (OtherError "OPENAI_API_KEY environment variable is required"), [], st)
        else
          (Returned {| UrlOnly.apiKey := key;
                       UrlOnly.openaiApiUrl :=
                         string_or (setting (parseCliArgs argv) penv "OPENAI_API_URL")
                           "https://api.openai.com/v1/images/generations";
                       UrlOnly.defaultConfig := fresh (dom (heap st)) |},
           [],
           {| heap := <[fresh (dom (heap st)) :=
                          UrlOnly.defaultConfig_value
                            (setting (parseCliArgs argv) penv "DEFAULT_MODEL")]> (heap st);
              files := files st |})
    | None =>
        (Threw (OtherError "OPENAI_API_KEY environment variable is required"), [], st)
    end.
Proof.
  unfold url_main. cbv zeta.
  destruct (setting (parseCliArgs argv) penv "OPENAI_API_KEY") as [key|]; [|reflexivity].
  destruct (String.eqb key EmptyString) eqn:E; [reflexivity|].
  unfold UrlOnly.new_ImageGenerationServer. rewrite E. reflexivity.
Qed.

Lemma setting_missing (cli penv : gmap string string) (name : string) :
  missing (setting cli penv name) = missing (cli !! name) && missing (penv !! name).
Proof.
  unfold setting, or_else, missing.
  destruct (cli !! name) as [x|]; [|reflexivity].
  destruct (String.eqb x EmptyString) eqn:E; [reflexivity|].
  rewrite E. reflexivity.
Qed.

Lemma setting_chosen (cli penv : gmap string string) (name value : string) :
  value <> EmptyString ->
  cli !! name = Some value \/ (missing (cli !! name) = true /\ penv !! name = Some value) ->
  setting cli penv name = Some value.
Proof.
  intros Hne [Hcli|[Hcli Henv]]; unfold setting, or_else.
  - rewrite Hcli. apply String.eqb_neq in Hne. rewrite Hne. reflexivity.
  - destruct (cli !! name) as [x|]; [|exact Henv].
    cbn in Hcli. rewrite Hcli. exact Henv.
Qed.

Lemma string_or_nonempty (s : option string) (fallback : string) :
  fallback <> EmptyString -> string_or s fallback <> EmptyString.
Proof.
  intros Hf. unfold string_or. destruct s as [x|]; [|exact Hf].
  destruct (String.eqb_spec x EmptyString); assumption.
Qed.

(** Start-up of the URL-only server fails exactly when neither the command
    line nor the environment gives a non-empty [OPENAI_API_KEY].  It then
    fails with the message of the top level and has created nothing; the
    check of the constructor is never the one that fails. *)
Theorem url_main_fails_iff (env : Env) (st : State) (argv : list string)
    (penv : gmap string string) :
  (missing (parseCliArgs argv !! "OPENAI_API_KEY") = true
   /\ missing (penv !! "OPENAI_API_KEY") = true
   <-> run env (url_main argv penv) st =
         (Threw (OtherError "OPENAI_API_KEY environment variable is required"), [], st))
  /\ ((exists e, outcome_of (run env (url_main argv penv) st) = Threw e)
      -> missing (parseCliArgs argv !! "OPENAI_API_KEY") = true
         /\ missing (penv !! "OPENAI_API_KEY") = true)
  /\ outcome_of (run env (url_main argv penv) st)
       <> Threw (OtherError "OPENAI_API_KEY is required").
Proof.
  rewrite run_url_main.
  pose proof (setting_missing (parseCliArgs argv) penv "OPENAI_API_KEY") as Hm.
  destruct (setting (parseCliArgs argv) penv "OPENAI_API_KEY") as [key|] eqn:Hs;
    cbn [missing] in Hm.
  - destruct (String.eqb key EmptyString) eqn:E.
    + symmetry in Hm. apply andb_true_iff in Hm.
      split; [split; [reflexivity|intros _; exact Hm]|].
      split; [intros _; exact Hm|discriminate].
    + symmetry in Hm. apply andb_false_iff in Hm.
      split; [split|split].
      * intros [H1 H2]. destruct Hm as [Hm|Hm]; congruence.
      * discriminate.
      * intros [e He]. discriminate.
      * discriminate.
  - symmetry in Hm. apply andb_true_iff in Hm.
    split; [split; [reflexivity|intros _; exact Hm]|].
    split; [intros _; exact Hm|discriminate].
Qed.

(** Neither a key on the command line nor in the environment. *)
Lemma url_main_fails_iff_witness :
  run (Examples.answering (inl (OtherError "unused")))
    (url_main ["node"; "index.js"; "-e"; "DEFAULT_MODEL"; "dall-e-3"]
       (<["OPENAI_API_KEY" := EmptyString]> ∅)) Examples.booted
  = (Threw (OtherError "OPENAI_API_KEY environment variable is required"), [],
     Examples.booted).
Proof.
  apply (url_main_fails_iff (Examples.answering (inl (OtherError "unused")))
           Examples.booted ["node"; "index.js"; "-e"; "DEFAULT_MODEL"; "dall-e-3"]
           (<["OPENAI_API_KEY" := EmptyString]> ∅)).
  split; vm_compute; reflexivity.
Defined.

Lemma url_main_succeeds (env : Env) (st : State) (argv : list string)
    (penv : gmap string string) (key : string) :
  key <> EmptyString ->
  parseCliArgs argv !! "OPENAI_API_KEY" = Some key
  \/ (missing (parseCliArgs argv !! "OPENAI_API_KEY") = true
      /\ penv !! "OPENAI_API_KEY" = Some key) ->
  exists this st',
    run env (url_main argv penv) st = (Returned this, [], st')
    /\ UrlOnly.apiKey this = key
    /\ heap st' !! UrlOnly.defaultConfig this
         = Some (UrlOnly.defaultConfig_value
                   (setting (parseCliArgs argv) penv "DEFAULT_MODEL")).
Proof.
  intros Hne Hkey. rewrite run_url_main.
  rewrite (setting_chosen _ _ _ _ Hne Hkey).
  apply String.eqb_neq in Hne. rewrite Hne.
  eexists _, _. split; [reflexivity|]. split; [reflexivity|].
  apply lookup_insert_eq.
Qed.

(** With a non-empty key on the command line, or else in the environment,
    start-up succeeds without an effect outside the process: the server
    holds that key, a non-empty endpoint (the configured one, or the OpenAI
    address when none is configured), and a new [defaultConfig] object with
    the defaults; the command line has precedence over the environment. *)
Theorem url_main_configuration (env : Env) (st : State) (argv : list string)
    (penv : gmap string string) (key : string) :
  key <> EmptyString ->
  parseCliArgs argv !! "OPENAI_API_KEY" = Some key
  \/ (missing (parseCliArgs argv !! "OPENAI_API_KEY") = true
      /\ penv !! "OPENAI_API_KEY" = Some key) ->
  exists this st',
    run env (url_main argv penv) st = (Returned this, [], st')
    /\ UrlOnly.apiKey this = key
    /\ UrlOnly.openaiApiUrl this <> EmptyString
    /\ (forall url, url <> EmptyString ->
          parseCliArgs argv !! "OPENAI_API_URL" = Some url
          \/ (missing (parseCliArgs argv !! "OPENAI_API_URL") = true
              /\ penv !! "OPENAI_API_URL" = Some url) ->
          UrlOnly.openaiApiUrl this = url)
    /\ (missing (parseCliArgs argv !! "OPENAI_API_URL") = true ->
        missing (penv !! "OPENAI_API_URL") = true ->
        UrlOnly.openaiApiUrl this = "https://api.openai.com/v1/images/generations")
    /\ heap st !! UrlOnly.defaultConfig this = None
    /\ heap st' !! UrlOnly.defaultConfig this
         = Some (UrlOnly.defaultConfig_value
                   (setting (parseCliArgs argv) penv "DEFAULT_MODEL"))
    /\ (forall l, l <> UrlOnly.defaultConfig this -> heap st' !! l = heap st !! l)
    /\ files st' = files st.
Proof.
  intros Hne Hkey. rewrite run_url_main.
  rewrite (setting_chosen _ _ _ _ Hne Hkey).
  pose proof Hne as Hne'. apply String.eqb_neq in Hne'. rewrite Hne'.
  eexists _, _. split; [reflexivity|]. cbn [UrlOnly.apiKey UrlOnly.openaiApiUrl
    UrlOnly.defaultConfig heap files].
  split; [reflexivity|]. split; [apply string_or_nonempty; discriminate|].
  split; [|split; [|split; [|split; [|split]]]].
  - intros url Hurl Hchosen. rewrite (setting_chosen _ _ _ _ Hurl Hchosen).
    cbn [string_or]. apply String.eqb_neq in Hurl. rewrite Hurl. reflexivity.
  - intros Hc He.
    pose proof (setting_missing (parseCliArgs argv) penv "OPENAI_API_URL") as Hm.
    rewrite Hc, He in Hm. cbn in Hm.
    destruct (setting (parseCliArgs argv) penv "OPENAI_API_URL") as [x|];
      [|reflexivity].
    cbn in Hm. cbn [string_or]. rewrite Hm. reflexivity.
  - apply not_elem_of_dom, is_fresh.
  - apply lookup_insert_eq.
  - intros l Hl. apply lookup_insert_ne. congruence.
  - reflexivity.
Qed.

(** The key given with [-e] wins over the one of the environment. *)
Lemma url_main_configuration_witness :
  exists this st',
    run (Examples.answering (inl (OtherError "unused")))
      (url_main ["node"; "index.js"; "-e"; "OPENAI_API_KEY"; "sk-cli"]
         (<["OPENAI_API_KEY" := "sk-env"]> ∅)) Examples.booted
      = (Returned this, [], st')
    /\ UrlOnly.apiKey this = "sk-cli".
Proof.
  destruct (url_main_configuration (Examples.answering (inl (OtherError "unused")))
              Examples.booted ["node"; "index.js"; "-e"; "OPENAI_API_KEY"; "sk-cli"]
              (<["OPENAI_API_KEY" := "sk-env"]> ∅) "sk-cli")
    as (this & st' & Hrun & Hkey & _).
  - discriminate.
  - left. vm_compute. reflexivity.
  - exists this, st'. split; assumption.
Defined.

(** From start-up to the request.  Once the URL-only server has started with
    a key, a well-formed call sends one request: to the endpoint of the
    server, with that key as bearer token, and with a [model] that is the
    caller's when the caller gives a truthy one, else the [DEFAULT_MODEL] of
    the command line, else that of the environment, else the built-in
    model. *)
Theorem url_start_then_call `{Platform} (env0 env : Env) (st : State)
    (argv : list string) (penv : gmap string string) (key : string)
    (request : Request) (props : JsObj) (p : string) :
  key <> EmptyString ->
  parseCliArgs argv !! "OPENAI_API_KEY" = Some key
  \/ (missing (parseCliArgs argv !! "OPENAI_API_KEY") = true
      /\ penv !! "OPENAI_API_KEY" = Some key) ->
  well_formed request props p ->
  exists this st' body,
    run env0 (url_main argv penv) st = (Returned this, [], st')
    /\ requests_sent (events_of (run env (UrlOnly.callToolHandler this request) st'))
       = [(UrlOnly.openaiApiUrl this, body,
           [("Authorization", "Bearer " ++ key); ("Content-Type", "application/json")])]
    /\ (truthy (get (JObj props) "model") = true ->
        obj_get "model" body = Some (get (JObj props) "model"))
    /\ (forall model, model <> EmptyString ->
          truthy (get (JObj props) "model") = false ->
          parseCliArgs argv !! "DEFAULT_MODEL" = Some model
          \/ (missing (parseCliArgs argv !! "DEFAULT_MODEL") = true
              /\ penv !! "DEFAULT_MODEL" = Some model) ->
          obj_get "model" body = Some (JStr model))
    /\ (truthy (get (JObj props) "model") = false ->
        missing (parseCliArgs argv !! "DEFAULT_MODEL") = true ->
        missing (penv !! "DEFAULT_MODEL") = true ->
        obj_get "model" body = Some (JStr "black-forest-labs/FLUX.1-schnell-Free")).
Proof.
  intros Hne Hkey Hwf.
  destruct (url_main_succeeds env0 st argv penv key Hne Hkey)
    as (this & st' & Hrun & Hk & Hconfig).
  exists this, st'. eexists. split; [exact Hrun|].
  rewrite (UrlFacts.url_run_valid _ _ _ _ _ _ Hwf).
  cbn [events_of fst snd requests_sent flat_map app].
  unfold UrlOnly.headers. rewrite Hk. split; [reflexivity|].
  rewrite (heap_read_lookup _ _ _ Hconfig).
  assert (Hmodel : forall x,
            obj_get "model" (UrlOnly.requestBody (UrlOnly.defaultConfig_value x) (JObj props))
            = if truthy (get (JObj props) "model") then Some (get (JObj props) "model")
              else Some (JStr (string_or x "black-forest-labs/FLUX.1-schnell-Free"))).
  { intros x. rewrite UrlFacts.url_requestBody_get. decide_field.
    destruct (truthy (get (JObj props) "model")); reflexivity. }
  rewrite Hmodel. split; [|split].
  - intros ->. reflexivity.
  - intros model Hm -> Hchosen. rewrite (setting_chosen _ _ _ _ Hm Hchosen).
    cbn [string_or]. apply String.eqb_neq in Hm. rewrite Hm. reflexivity.
  - intros -> Hc He.
    pose proof (setting_missing (parseCliArgs argv) penv "DEFAULT_MODEL") as Hmiss.
    rewrite Hc, He in Hmiss. cbn in Hmiss.
    destruct (setting (parseCliArgs argv) penv "DEFAULT_MODEL") as [x|]; [|reflexivity].
    cbn in Hmiss. cbn [string_or]. rewrite Hmiss. reflexivity.
Qed.

(** Key from the environment, model from the command line. *)
Lemma url_start_then_call_witness :
  exists this st' body,
    run (Examples.answering (inl (OtherError "unused")))
      (url_main ["node"; "index.js"; "-e"; "DEFAULT_MODEL"; "dall-e-3"]
         (<["OPENAI_API_KEY" := "sk-env"]> ∅)) Examples.booted
      = (Returned this, [], st')
    /\ requests_sent (events_of
         (run (Examples.answering (inr (Examples.url_answer "https://img.example/1.png")))
            (@UrlOnly.callToolHandler Examples.posix this
               (generate [("prompt", JStr "a fox")])) st'))
       = [(UrlOnly.openaiApiUrl this, body,
           [("Authorization", "Bearer sk-env"); ("Content-Type", "application/json")])]
    /\ obj_get "model" body = Some (JStr "dall-e-3").
Proof.
  destruct (@url_start_then_call Examples.posix
              (Examples.answering (inl (OtherError "unused")))
              (Examples.answering (inr (Examples.url_answer "https://img.example/1.png")))
              Examples.booted ["node"; "index.js"; "-e"; "DEFAULT_MODEL"; "dall-e-3"]
              (<["OPENAI_API_KEY" := "sk-env"]> ∅) "sk-env"
              (generate [("prompt", JStr "a fox")]) [("prompt", JStr "a fox")] "a fox")
    as (this & st' & body & Hrun & Hsent & _ & Hmodel & _).
  - discriminate.
  - right. split; vm_compute; reflexivity.
  - unfold well_formed. simpl. repeat split; reflexivity.
  - exists this, st', body. split; [exact Hrun|]. split; [exact Hsent|].
    apply (Hmodel "dall-e-3").
    + discriminate.
    + reflexivity.
    + left. vm_compute. reflexivity.
Defined.

Lemma run_inline_main (env : Env) (st : State) (penv : gmap string string) :
  run env (inline_main penv) st =
    let config := fresh (dom (heap st)) in
    let st' := {| heap := <[config := Inline.defaultConfig_value]> (heap st);
                  files := files st |} in
    match penv !! "OPENAI_API_KEY" with
    | Some key =>
        if String.eqb key EmptyString then
          (Threw (OtherError "OPENAI_API_KEY environment variable is required"), [], st')
        else
          (Returned (config,
                     {| Inline.apiKey := key;
                        Inline.apiUrl :=
                          string_or (penv !! "API_URL")
                            "https://api.openai.com/v1/images/generations" |}),
           [], st')
    | None =>
        (Threw (OtherError "OPENAI_API_KEY environment variable is required"), [], st')
    end.
Proof.
  unfold inline_main. cbn -[Inline.defaultConfig_value lookup].
  destruct (penv !! "OPENAI_API_KEY") as [key|]; [|reflexivity].
  destruct (String.eqb key EmptyString) eqn:E; [reflexivity|].
  unfold Inline.new_ImageGenerationServer. rewrite E. reflexivity.
Qed.

(** Start-up of the server with inline results reads two variables of the
    environment, [OPENAI_API_KEY] and [API_URL], and no other: setting any
    other variable (such as [OPENAI_API_URL] or [DEFAULT_MODEL]) changes
    nothing.  With a non-empty key the endpoint is [API_URL] when that is
    non-empty and the OpenAI address otherwise. *)
Theorem inline_main_environment (env : Env) (st : State)
    (penv : gmap string string) (variable value : string) :
  variable <> "OPENAI_API_KEY" ->
  variable <> "API_URL" ->
  run env (inline_main (<[variable := value]> penv)) st = run env (inline_main penv) st
  /\ (forall key, penv !! "OPENAI_API_KEY" = Some key -> key <> EmptyString ->
      exists config server,
        outcome_of (run env (inline_main penv) st) = Returned (config, server)
        /\ Inline.apiKey server = key
        /\ Inline.apiUrl server
           = match penv !! "API_URL" with
             | Some url => if String.eqb url EmptyString
                           then "https://api.openai.com/v1/images/generations"
                           else url
             | None => "https://api.openai.com/v1/images/generations"
             end
        /\ heap (state_of (run env (inline_main penv) st)) !! config
           = Some Inline.defaultConfig_value).
Proof.
  intros Hk Hu. split.
  - rewrite !run_inline_main. rewrite !lookup_insert_ne by congruence. reflexivity.
  - intros key Hkey Hne. rewrite run_inline_main. cbv zeta. rewrite Hkey.
    apply String.eqb_neq in Hne. rewrite Hne.
    eexists _, _. split; [reflexivity|]. split; [reflexivity|].
    split; [reflexivity|]. apply lookup_insert_eq.
Qed.

(** [OPENAI_API_URL] does not move the endpoint of this server. *)
Lemma inline_main_environment_witness :
  run (Examples.answering (inl (OtherError "unused")))
    (inline_main (<["OPENAI_API_URL" := "https://elsewhere.example/v1"]>
                    (<["OPENAI_API_KEY" := "sk-env"]> ∅))) Examples.booted
  = run (Examples.answering (inl (OtherError "unused")))
      (inline_main (<["OPENAI_API_KEY" := "sk-env"]> ∅)) Examples.booted.
Proof.
  apply (inline_main_environment (Examples.answering (inl (OtherError "unused")))
           Examples.booted (<["OPENAI_API_KEY" := "sk-env"]> ∅)
           "OPENAI_API_URL" "https://elsewhere.example/v1").
  - discriminate.
  - discriminate.
Defined.

(** ** How programs compose *)
Module ComposeFacts.
Import Js Effects Protocol Terms ObjFacts RunFacts.

(** Sequencing: the second program runs in the state the first one left,
    unless the first one threw. *)
Lemma run_bind {A B : Type} (env : Env) (m : Prog A) (f : A -> Prog B) (st : State) :
  run env (bind m f) st =
    let '(o, evs, st') := run env m st in
    match o with
    | Returned a =>
        let '(o2, evs2, st2) := run env (f a) st' in (o2, (evs ++ evs2)%list, st2)
    | Threw e => (Threw e, evs, st')
    end.
Proof.
  revert st. induction m as [a|e|l k IH|o k IH|u b h k IH|p d k IH]; intros st;
    cbn [bind run].
  - destruct (run env (f a) st) as [[o2 evs2] st2]. reflexivity.
  - reflexivity.
  - apply IH.
  - apply IH.
  - rewrite IH. destruct (run env (k _) _) as [[o evs] st'].
    destruct o as [a|e]; [|reflexivity].
    destruct (run env (f a) st') as [[o2 evs2] st2]. reflexivity.
  - destruct (write_fault env p d) as [[msg residue]|]; rewrite IH;
      destruct (run env (k _) _) as [[o evs] st'];
      (destruct o as [a|e]; [|reflexivity]);
      destruct (run env (f a) st') as [[o2 evs2] st2]; reflexivity.
Qed.

(** [try]/[catch]: the handler runs in the state the block left, and only
    when the block threw. *)
Lemma run_try_catch {A : Type} (env : Env) (m : Prog A) (h : Exn -> Prog A)
    (st : State) :
  run env (try_catch m h) st =
    let '(o, evs, st') := run env m st in
    match o with
    | Returned a => (Returned a, evs, st')
    | Threw e =>
        let '(o2, evs2, st2) := run env (h e) st' in (o2, (evs ++ evs2)%list, st2)
    end.
Proof.
  revert st. induction m as [a|e|l k IH|o k IH|u b h' k IH|p d k IH]; intros st;
    cbn [try_catch run].
  - reflexivity.
  - destruct (run env (h e) st) as [[o2 evs2] st2]. reflexivity.
  - apply IH.
  - apply IH.
  - rewrite IH. destruct (run env (k _) _) as [[o evs] st'].
    destruct o as [a|e]; [reflexivity|].
    destruct (run env (h e) st') as [[o2 evs2] st2]. reflexivity.
  - destruct (write_fault env p d) as [[msg residue]|]; rewrite IH;
      destruct (run env (k _) _) as [[o evs] st'];
      (destruct o as [a|e]; [reflexivity|]);
      destruct (run env (h e) st') as [[o2 evs2] st2]; reflexivity.
Qed.

(** The [catch] block of the handlers, applied to what a block did. *)
Lemma run_try_on_error `{Platform} (env : Env) (m : Prog JsVal) (st : State) :
  run env (try_catch m on_error) st =
    let '(o, evs, st') := run env m st in
    (match o with
     | Returned a => Returned a
     | Threw e => error_outcome e
     end, evs, st').
Proof.
  rewrite run_try_catch. destruct (run env m st) as [[o evs] st'].
  destruct o as [a|e]; [reflexivity|].
  rewrite run_on_error, app_nil_r. reflexivity.
Qed.

End ComposeFacts.

(** ** The save block and the plain result *)
Module SaveFacts.
Import Js Effects Protocol Terms MoreTerms ObjFacts RunFacts ComposeFacts Inline.

Lemma run_save_image `{Platform} env st image_path b64_json data :
  run env (save_image image_path b64_json data) st =
    match buffer_of b64_json with
    | inl message => (Threw (save_failure message), [], st)
    | inr bytes =>
        match image_path with
        | JStr p =>
            match write_fault env (path_resolve p) bytes with
            | Some (message, residue) =>
                (Threw (save_failure message), [],
                 after_failed_write (path_resolve p) bytes residue st)
            | None =>
                (Returned (saved_result (path_resolve p) data),
                 [EvWrite (path_resolve p) bytes],
                 {| heap := heap st; files := <[path_resolve p := bytes]> (files st) |})
            end
        | _ => (Threw (save_failure (path_resolve_invalid image_path)), [], st)
        end
    end.
Proof.
  unfold save_image, buffer_of, Buffer_from, save_failure, saved_result.
  destruct b64_json as [| |b|x|s|xs|o];
    try (destruct (Buffer_from_other _) as [message|bytes]; [reflexivity|]);
    (destruct image_path as [| |b'|x'|p|xs'|o']; try reflexivity;
     cbn -[Base64.decode newline];
     destruct (write_fault env _ _) as [[message' residue]|]; reflexivity).
Qed.

(** What the handler does with an answer of the service, in terms of what
    [shape_result] does. *)
Lemma run_inline_success `{Platform} env st l server request props p data :
  well_formed request props p ->
  downstream env (apiUrl server)
    (requestBody (heap_read st l) (JObj props)) (headers server) = inr data ->
  run env (callToolHandler l server request) st =
    let body := requestBody (heap_read st l) (JObj props) in
    let fl := fresh (dom (heap st)) in
    let st1 := {| heap := <[fl := client_touch env body]> (<[fl := body]> (heap st));
                  files := files st |} in
    let '(o, evs, st2) := run env (shape_result (JObj props) data) st1 in
    (match o with
     | Returned a => Returned a
     | Threw e => error_outcome e
     end, EvPost (apiUrl server) body (headers server) :: evs, st2).
Proof.
  intros Hwf Hdown. rewrite (InlineFacts.inline_run_valid _ _ _ _ _ _ _ Hwf).
  cbv zeta. rewrite Hdown. unfold inline_after_post. rewrite run_try_on_error.
  destruct (run env (shape_result (JObj props) data) _) as [[o evs] st2].
  reflexivity.
Qed.

Lemma run_shape_result `{Platform} env st args data :
  run env (shape_result args data) st =
    if truthy (get args "image_path") then
      match data with
      | JUndefined =>
          (Threw (OtherError "Cannot read properties of undefined (reading 'data')"),
           [], st)
      | JNull =>
          (Threw (OtherError "Cannot read properties of null (reading 'data')"), [], st)
      | _ =>
          if truthy (first_b64_json data) then
            run env (save_image (get args "image_path") (first_b64_json data) data) st
          else (Returned (plain_result data), [], st)
      end
    else (Returned (plain_result data), [], st).
Proof.
  unfold shape_result, plain_result, first_b64_json.
  destruct (truthy (get args "image_path")); [|reflexivity].
  destruct data; cbn [data_of bind run]; try reflexivity;
    match goal with |- context [truthy ?b] => destruct (truthy b) end; reflexivity.
Qed.

Lemma run_shape_result_save `{Platform} env st args data :
  truthy (get args "image_path") = true ->
  truthy (first_b64_json data) = true ->
  run env (shape_result args data) st =
    run env (save_image (get args "image_path") (first_b64_json data) data) st.
Proof.
  intros Hip Hb64. rewrite run_shape_result, Hip, Hb64.
  destruct data; try reflexivity; discriminate.
Qed.

End SaveFacts.

Import ComposeFacts SaveFacts.

(** In the server with inline results, when the service answers and the
    caller gave no truthy [image_path], or the answer is not [null] and holds
    no truthy [b64_json] in its first entry, the result is one text block
    with the JSON text of the answer, nothing is written and the files are as
    they were. *)
Theorem inline_plain_result `{Platform} (env : Env) (st : State)
    (defaultConfig : loc) (server : Inline.Server)
    (request : Request) (props : JsObj) (p : string) (data : JsVal) :
  well_formed request props p ->
  downstream env (Inline.apiUrl server)
    (Inline.requestBody (heap_read st defaultConfig) (JObj props))
    (Inline.headers server) = inr data ->
  truthy (get (JObj props) "image_path") = false
  \/ (nullish data = false /\ truthy (first_b64_json data) = false) ->
  outcome_of (run env (Inline.callToolHandler defaultConfig server request) st)
    = Returned
        (JObj [("content",
                JArr [JObj [("type", JStr "text");
                            ("text", JStr (JSON_stringify data))]])])
  /\ written (events_of (run env (Inline.callToolHandler defaultConfig server request) st))
     = []
  /\ files (state_of (run env (Inline.callToolHandler defaultConfig server request) st))
     = files st.
Proof.
  intros Hwf Hdown Hcase.
  rewrite (run_inline_success _ _ _ _ _ _ _ _ Hwf Hdown). cbv zeta.
  rewrite run_shape_result.
  destruct Hcase as [Hip|[Hdata Hb64]].
  - rewrite Hip. repeat split.
  - rewrite Hb64. destruct (truthy (get (JObj props) "image_path")); [|repeat split].
    destruct data; try discriminate; repeat split.
Qed.

(** A file is asked for, and the answer holds addresses only. *)
Lemma inline_plain_result_witness :
  outcome_of
    (run (Examples.answering (inr (Examples.url_answer "https://img.example/1.png")))
       (@Inline.callToolHandler Examples.posix Examples.inline_defaultConfig
          Examples.inline_server
          (generate [("prompt", JStr "a fox"); ("image_path", JStr "fox.png")]))
       Examples.booted)
  = Returned
      (JObj [("content",
              JArr [JObj [("type", JStr "text");
                          ("text", JStr (@JSON_stringify Examples.posix
                                           (Examples.url_answer
                                              "https://img.example/1.png")))]])]).
Proof.
  apply (@inline_plain_result Examples.posix
           (Examples.answering (inr (Examples.url_answer "https://img.example/1.png")))
           Examples.booted Examples.inline_defaultConfig Examples.inline_server
           (generate [("prompt", JStr "a fox"); ("image_path", JStr "fox.png")])
           [("prompt", JStr "a fox"); ("image_path", JStr "fox.png")] "a fox"
           (Examples.url_answer "https://img.example/1.png")).
  - unfold well_formed. simpl. repeat split; reflexivity.
  - reflexivity.
  - right. split; reflexivity.
Defined.

(** In the server with inline results, an answer whose body is [null] is
    returned as text when the caller gave no [image_path], but with a truthy
    [image_path] the handler throws a [TypeError], which the [catch] block
    lets through; nothing is written. *)
Theorem inline_null_answer `{Platform} (env : Env) (st : State)
    (defaultConfig : loc) (server : Inline.Server)
    (request : Request) (props : JsObj) (p : string) :
  well_formed request props p ->
  downstream env (Inline.apiUrl server)
    (Inline.requestBody (heap_read st defaultConfig) (JObj props))
    (Inline.headers server) = inr JNull ->
  outcome_of (run env (Inline.callToolHandler defaultConfig server request) st)
    = (if truthy (get (JObj props) "image_path")
       then Threw (OtherError "Cannot read properties of null (reading 'data')")
       else Returned
              (JObj [("content",
                      JArr [JObj [("type", JStr "text");
                                  ("text", JStr (JSON_stringify JNull))]])]))
  /\ written (events_of (run env (Inline.callToolHandler defaultConfig server request) st))
     = [].
Proof.
  intros Hwf Hdown.
  rewrite (run_inline_success _ _ _ _ _ _ _ _ Hwf Hdown). cbv zeta.
  rewrite run_shape_result.
  destruct (truthy (get (JObj props) "image_path")); repeat split.
Qed.

Lemma inline_null_answer_witness :
  outcome_of
    (run (Examples.answering (inr JNull))
       (@Inline.callToolHandler Examples.posix Examples.inline_defaultConfig
          Examples.inline_server
          (generate [("prompt", JStr "a fox"); ("image_path", JStr "fox.png")]))
       Examples.booted)
  = Threw (OtherError "Cannot read properties of null (reading 'data')").
Proof.
  apply (@inline_null_answer Examples.posix (Examples.answering (inr JNull))
           Examples.booted Examples.inline_defaultConfig Examples.inline_server
           (generate [("prompt", JStr "a fox"); ("image_path", JStr "fox.png")])
           [("prompt", JStr "a fox"); ("image_path", JStr "fox.png")] "a fox").
  - unfold well_formed. simpl. repeat split; reflexivity.
  - reflexivity.
Defined.

(** Once the save block is entered (truthy [image_path], truthy [b64_json]),
    it either saves, leaving the bytes at the path it reports, or throws the
    internal error "Failed to save image: " followed by the cause, with no
    write completed; the request has been sent all the same.  A write that
    fails is reported with its message, and the file at the resolved path is
    then as it was, or holds the bytes written before the failure: nothing
    cleans it up.  An [image_path] that is not a string is reported with the
    message of [path.resolve], and the files are as they were. *)
Theorem inline_save_failure `{Platform} (env : Env) (st : State)
    (defaultConfig : loc) (server : Inline.Server)
    (request : Request) (props : JsObj) (p : string) (data : JsVal) :
  well_formed request props p ->
  downstream env (Inline.apiUrl server)
    (Inline.requestBody (heap_read st defaultConfig) (JObj props))
    (Inline.headers server) = inr data ->
  truthy (get (JObj props) "image_path") = true ->
  truthy (first_b64_json data) = true ->
  forall r, r = run env (Inline.callToolHandler defaultConfig server request) st ->
  ((exists path bytes,
      get (JObj props) "image_path" = JStr path
      /\ buffer_of (first_b64_json data) = inr bytes
      /\ outcome_of r
         = Returned
             (JObj [("content",
                     JArr [JObj [("type", JStr "text");
                                 ("text",
                                  JStr ("Image saved successfully to: "
                                        ++ path_resolve path
                                        ++ String "010"%char
                                             (String "010"%char
                                                (JSON_stringify data))))]])])
      /\ written (events_of r) = [(path_resolve path, bytes)]
      /\ files (state_of r) = <[path_resolve path := bytes]> (files st))
   \/ (exists message,
         outcome_of r
         = Threw (McpError InternalError ("Failed to save image: " ++ message))
         /\ written (events_of r) = []
         /\ (files (state_of r) = files st
             \/ exists path bytes k,
                  get (JObj props) "image_path" = JStr path
                  /\ buffer_of (first_b64_json data) = inr bytes
                  /\ files (state_of r)
                     = <[path_resolve path := take k bytes]> (files st))))
  /\ (forall path s message residue,
        get (JObj props) "image_path" = JStr path ->
        first_b64_json data = JStr s ->
        write_fault env (path_resolve path) (Base64.decode s) = Some (message, residue) ->
        outcome_of r
        = Threw (McpError InternalError ("Failed to save image: " ++ message))
        /\ written (events_of r) = []
        /\ files (state_of r)
           = match residue with
             | Some k => <[path_resolve path := take k (Base64.decode s)]> (files st)
             | None => files st
             end)
  /\ (forall s,
        (forall path, get (JObj props) "image_path" <> JStr path) ->
        first_b64_json data = JStr s ->
        outcome_of r
        = Threw (McpError InternalError
                   ("Failed to save image: "
                    ++ path_resolve_invalid (get (JObj props) "image_path")))
        /\ written (events_of r) = []
        /\ files (state_of r) = files st)
  /\ requests_sent (events_of r)
     = [(Inline.apiUrl server,
         Inline.requestBody (heap_read st defaultConfig) (JObj props),
         Inline.headers server)].
Proof.
  intros Hwf Hdown Hip Hb64 r ->.
  rewrite (InlineFacts.requests_valid _ _ _ _ _ _ _ Hwf).
  rewrite (run_inline_success _ _ _ _ _ _ _ _ Hwf Hdown). cbv zeta.
  rewrite (run_shape_result_save _ _ _ _ Hip Hb64).
  rewrite run_save_image.
  split; [|split; [|split; [|reflexivity]]].
  - destruct (buffer_of (first_b64_json data)) as [m|bytes].
    + right. exists m. split; [reflexivity|split; [reflexivity|left; reflexivity]].
    + destruct (get (JObj props) "image_path") as [| |b|x|path|xs|o];
        try (right; eexists; split; [reflexivity|split; [reflexivity|left; reflexivity]]).
      destruct (write_fault env _ _) as [[m residue]|].
      * right. exists m. split; [reflexivity|split; [reflexivity|]].
        destruct residue as [k|]; [right|left; reflexivity].
        exists path, bytes, k. split; [reflexivity|split; reflexivity].
      * left. exists path, bytes.
        split; [reflexivity|]. split; [reflexivity|].
        split; [reflexivity|split; reflexivity].
  - intros path s message residue Hpath Hs Hw. rewrite Hpath, Hs. cbn [buffer_of].
    rewrite Hw. split; [reflexivity|split; [reflexivity|]].
    destruct residue; reflexivity.
  - intros s Hnot Hs. rewrite Hs. cbn [buffer_of].
    destruct (get (JObj props) "image_path") as [| |b|x|path|xs|o];
      try (split; [reflexivity|split; reflexivity]).
    exfalso. apply (Hnot path). reflexivity.
Qed.

(** A disk that fills up after the first byte: the error names the cause,
    and the file holds that byte. *)
Lemma inline_save_failure_witness :
  outcome_of
    (run {| downstream := fun _ _ _ => inr (Examples.b64_answer "UE5H");
            client_touch := fun o => o;
            write_fault := fun _ _ =>
              Some ("ENOSPC: no space left on device", Some 1%nat) |}
       (@Inline.callToolHandler Examples.posix Examples.inline_defaultConfig
          Examples.inline_server
          (generate [("prompt", JStr "a fox"); ("image_path", JStr "fox.png")]))
       Examples.booted)
  = Threw (McpError InternalError
             "Failed to save image: ENOSPC: no space left on device")
  /\ written (events_of
       (run {| downstream := fun _ _ _ => inr (Examples.b64_answer "UE5H");
               client_touch := fun o => o;
               write_fault := fun _ _ =>
                 Some ("ENOSPC: no space left on device", Some 1%nat) |}
          (@Inline.callToolHandler Examples.posix Examples.inline_defaultConfig
             Examples.inline_server
             (generate [("prompt", JStr "a fox"); ("image_path", JStr "fox.png")]))
          Examples.booted)) = []
  /\ files (state_of
       (run {| downstream := fun _ _ _ => inr (Examples.b64_answer "UE5H");
               client_touch := fun o => o;
               write_fault := fun _ _ =>
                 Some ("ENOSPC: no space left on device", Some 1%nat) |}
          (@Inline.callToolHandler Examples.posix Examples.inline_defaultConfig
             Examples.inline_server
             (generate [("prompt", JStr "a fox"); ("image_path", JStr "fox.png")]))
          Examples.booted))
     = <["/srv/fox.png" := ["P"%byte]]> ∅.
Proof.
  destruct (@inline_save_failure Examples.posix
              {| downstream := fun _ _ _ => inr (Examples.b64_answer "UE5H");
                 client_touch := fun o => o;
                 write_fault := fun _ _ =>
                   Some ("ENOSPC: no space left on device", Some 1%nat) |}
              Examples.booted Examples.inline_defaultConfig Examples.inline_server
              (generate [("prompt", JStr "a fox"); ("image_path", JStr "fox.png")])
              [("prompt", JStr "a fox"); ("image_path", JStr "fox.png")] "a fox"
              (Examples.b64_answer "UE5H")
              ltac:(unfold well_formed; simpl; repeat split; reflexivity)
              eq_refl eq_refl eq_refl _ eq_refl) as (_ & Hfault & _).
  apply (Hfault "fox.png" "UE5H" "ENOSPC: no space left on device" (Some 1%nat));
    reflexivity.
Defined.


(** ** The properties of the body *)
Module BodyFacts.
Import Js Effects Protocol Terms MoreTerms ObjFacts RunFacts.

Lemma keys_obj_set (k : string) (v : JsVal) (o : JsObj) :
  keys (obj_set k v o) =
    if existsb (String.eqb k) (keys o) then keys o else (keys o ++ [k])%list.
Proof.
  unfold keys. induction o as [|[k0 v0] rest IH]; cbn; [reflexivity|].
  destruct (String.eqb k k0) eqn:E; cbn.
  - apply String.eqb_eq in E. subst k0. reflexivity.
  - rewrite IH. destruct (existsb (String.eqb k) (map fst rest)); reflexivity.
Qed.

(** The idiom [...(x && { k: x })] adds no property to an object that has
    [k]. *)
Lemma keys_spread_and (o : JsObj) (k : string) (x : JsVal) :
  keys (spread o (js_and x (JObj [(k, x)]))) =
    if existsb (String.eqb k) (keys o) then keys o
    else if truthy x then (keys o ++ [k])%list else keys o.
Proof.
  rewrite js_and_spread. destruct (truthy x).
  - apply keys_obj_set.
  - destruct (existsb (String.eqb k) (keys o)); reflexivity.
Qed.

Lemma url_body_keys (model : option string) (args : JsVal) :
  keys (UrlOnly.requestBody (UrlOnly.defaultConfig_value model) args) =
    ["width"; "height"; "steps"; "n"; "model"; "prompt"; "response_format"].
Proof.
  unfold UrlOnly.requestBody. cbv zeta.
  rewrite keys_obj_set, !keys_spread_and, keys_obj_set. reflexivity.
Qed.

Lemma inline_body_keys (args : JsVal) :
  keys (Inline.requestBody Inline.defaultConfig_value args) =
    ["model"; "width"; "height"; "steps"; "n"; "response_format"; "prompt"].
Proof.
  unfold Inline.requestBody. cbv zeta.
  rewrite !keys_spread_and, keys_obj_set. reflexivity.
Qed.

End BodyFacts.

Import BodyFacts.

(** The body of a request has a fixed set of properties in a fixed order,
    whatever the arguments hold: the five defaults, [prompt] and
    [response_format].  A property of the arguments that the handler does
    not know ([seed], [image_path], ...) is never sent on. *)
Theorem body_properties_fixed `{Platform} (env : Env) (st_url st_inline : State)
    (this : UrlOnly.Server) (model : option string)
    (defaultConfig : loc) (server : Inline.Server)
    (request : Request) (props : JsObj) (p : string) :
  well_formed request props p ->
  heap st_url !! UrlOnly.defaultConfig this = Some (UrlOnly.defaultConfig_value model) ->
  heap st_inline !! defaultConfig = Some Inline.defaultConfig_value ->
  map keys (posted_bodies (events_of
    (run env (UrlOnly.callToolHandler this request) st_url)))
    = [["width"; "height"; "steps"; "n"; "model"; "prompt"; "response_format"]]
  /\ map keys (posted_bodies (events_of
       (run env (Inline.callToolHandler defaultConfig server request) st_inline)))
     = [["model"; "width"; "height"; "steps"; "n"; "response_format"; "prompt"]].
Proof.
  intros Hwf Hu Hi. split.
  - rewrite (posted_url _ _ _ _ _ _ Hwf), (heap_read_lookup _ _ _ Hu).
    cbn [map]. rewrite url_body_keys. reflexivity.
  - rewrite (posted_inline _ _ _ _ _ _ _ Hwf), (heap_read_lookup _ _ _ Hi).
    cbn [map]. rewrite inline_body_keys. reflexivity.
Qed.

(** A [seed] and a [negative_prompt] among the arguments stay behind. *)
Lemma body_properties_fixed_witness :
  map keys (posted_bodies (events_of
    (run (Examples.answering (inr (Examples.url_answer "https://img.example/1.png")))
       (@UrlOnly.callToolHandler Examples.posix Examples.url_server
          (generate [("seed", JInt 7); ("prompt", JStr "a fox");
                     ("negative_prompt", JStr "blurry")]))
       Examples.booted)))
  = [["width"; "height"; "steps"; "n"; "model"; "prompt"; "response_format"]].
Proof.
  apply (@body_properties_fixed Examples.posix
           (Examples.answering (inr (Examples.url_answer "https://img.example/1.png")))
           Examples.booted Examples.booted Examples.url_server None
           Examples.inline_defaultConfig Examples.inline_server
           (generate [("seed", JInt 7); ("prompt", JStr "a fox");
                      ("negative_prompt", JStr "blurry")])
           [("seed", JInt 7); ("prompt", JStr "a fox"); ("negative_prompt", JStr "blurry")]
           "a fox").
  - unfold well_formed. simpl. repeat split; reflexivity.
  - reflexivity.
  - reflexivity.
Defined.

(** Each call sends at most one request, and exactly one when the tool is
    [generate_image] and the arguments are an object with a string [prompt]:
    to the endpoint of the server, with the server's key as bearer token,
    whatever the service then answers.  There is no second attempt. *)
Theorem one_request_per_call `{Platform} (env : Env) (st_url st_inline : State)
    (this : UrlOnly.Server) (defaultConfig : loc) (server : Inline.Server)
    (request : Request) :
  requests_sent (events_of (run env (UrlOnly.callToolHandler this request) st_url))
    = (if String.eqb (name request) "generate_image" && acceptable (arguments request)
       then [(UrlOnly.openaiApiUrl this,
              UrlOnly.requestBody (heap_read st_url (UrlOnly.defaultConfig this))
                (arguments request),
              [("Authorization", "Bearer " ++ UrlOnly.apiKey this);
               ("Content-Type", "application/json")])]
       else [])
  /\ requests_sent (events_of
       (run env (Inline.callToolHandler defaultConfig server request) st_inline))
     = (if String.eqb (name request) "generate_image" && acceptable (arguments request)
        then [(Inline.apiUrl server,
               Inline.requestBody (heap_read st_inline defaultConfig) (arguments request),
               [("Authorization", "Bearer " ++ Inline.apiKey server);
                ("Content-Type", "application/json")])]
        else []).
Proof.
  destruct (String.eqb_spec (name request) "generate_image") as [Hn|Hn]; cbn [andb].
  - destruct (acceptable (arguments request)) eqn:Ha.
    + destruct (acceptable_inv _ Ha) as (props & p & Hargs & Hp).
      assert (Hwf : well_formed request props p) by (repeat split; assumption).
      rewrite (UrlFacts.url_run_valid _ _ _ _ _ _ Hwf).
      rewrite (InlineFacts.requests_valid _ _ _ _ _ _ _ Hwf).
      rewrite Hargs. split; reflexivity.
    + rewrite (UrlFacts.url_invalid_arguments this request Hn Ha).
      rewrite (InlineFacts.inline_invalid_arguments defaultConfig server request Hn Ha).
      split; reflexivity.
  - rewrite (UrlFacts.url_unknown_tool this request Hn).
    rewrite (InlineFacts.inline_unknown_tool defaultConfig server request Hn).
    split; reflexivity.
Qed.

(** ** The catalog *)

(** In the URL-only server the catalog and the handler read the same
    [defaultConfig]: listing the tools has no effect outside the process,
    the description of [model] names the configured default model, and that
    model is the one a call without a truthy [model] sends. *)
Theorem catalog_names_default_model `{Platform} (env : Env) (st : State)
    (this : UrlOnly.Server) (model : option string) :
  heap st !! UrlOnly.defaultConfig this = Some (UrlOnly.defaultConfig_value model) ->
  forall default_model,
  default_model = string_or model "black-forest-labs/FLUX.1-schnell-Free" ->
  run env (UrlOnly.listToolsHandler this) st
    = (Returned (UrlOnly.tools default_model), [], st)
  /\ get (get (get (UrlOnly.inputSchema default_model) "properties") "model") "description"
     = JStr ("Model to use for generation (default: " ++ default_model ++ ")")
  /\ (exists catalog tool others,
        outcome_of (run env (UrlOnly.listToolsHandler this) st) = Returned catalog
        /\ get catalog "tools" = JArr (tool :: others)
        /\ get tool "name" = JStr "generate_image"
        /\ get (get (get (get tool "inputSchema") "properties") "model") "description"
           = JStr ("Model to use for generation (default: " ++ default_model ++ ")"))
  /\ (forall env' request props p,
        well_formed request props p ->
        truthy (get (JObj props) "model") = false ->
        exists body,
          posted_bodies (events_of (run env' (UrlOnly.callToolHandler this request) st))
            = [body]
          /\ obj_get "model" body = Some (JStr default_model)).
Proof.
  intros Hconfig default_model ->.
  assert (Hrun : run env (UrlOnly.listToolsHandler this) st
                 = (Returned (UrlOnly.tools
                                (string_or model "black-forest-labs/FLUX.1-schnell-Free")),
                    [], st)).
  { unfold UrlOnly.listToolsHandler. cbn [readObject bind run].
    rewrite (heap_read_lookup _ _ _ Hconfig). reflexivity. }
  split; [exact Hrun|split; [reflexivity|split]].
  - rewrite Hrun. eexists _, _, _. split; [reflexivity|].
    split; [reflexivity|]. split; reflexivity.
  - intros env' request props p Hwf Hmodel. eexists.
    split; [apply (posted_url _ _ _ _ _ _ Hwf)|].
    rewrite (heap_read_lookup _ _ _ Hconfig), UrlFacts.url_requestBody_get.
    decide_field. rewrite Hmodel. reflexivity.
Qed.

Lemma catalog_names_default_model_witness :
  run (Examples.answering (inl (OtherError "unused")))
    (@UrlOnly.listToolsHandler Examples.posix Examples.url_server) Examples.booted
  = (Returned (UrlOnly.tools "black-forest-labs/FLUX.1-schnell-Free"), [],
     Examples.booted).
Proof.
  apply (@catalog_names_default_model Examples.posix
           (Examples.answering (inl (OtherError "unused")))
           Examples.booted Examples.url_server None).
  - reflexivity.
  - reflexivity.
Defined.

(** The catalog advertises exactly the tools the handler routes: a call is
    refused as an unknown tool if and only if its name is not among the
    advertised names, in both servers. *)
Theorem advertised_tools_are_routed `{Platform} (this : UrlOnly.Server)
    (defaultConfig : loc) (server : Inline.Server) (model : string)
    (request : Request) :
  (~ In (name request) (advertised (UrlOnly.tools model))
   <-> UrlOnly.callToolHandler this request
       = Throw (McpError MethodNotFound ("Unknown tool: " ++ name request)))
  /\ (~ In (name request) (advertised Inline.tools)
      <-> Inline.callToolHandler defaultConfig server request
          = Throw (McpError MethodNotFound ("Unknown tool: " ++ name request))).
Proof.
  assert (Hadv : forall s, In s ["generate_image"] <-> s = "generate_image").
  { intros s. cbn. split; [intros [H0|[]]; congruence|intros ->; left; reflexivity]. }
  change (advertised (UrlOnly.tools model)) with ["generate_image"].
  change (advertised Inline.tools) with ["generate_image"].
  rewrite Hadv. split; split.
  - apply UrlFacts.url_unknown_tool.
  - intros Hthrow Hn. unfold UrlOnly.callToolHandler in Hthrow. rewrite Hn in Hthrow.
    cbn [String.eqb Ascii.eqb Bool.eqb negb] in Hthrow.
    repeat match type of Hthrow with
           | (if ?c then _ else _) = _ => destruct c
           end; discriminate.
  - apply InlineFacts.inline_unknown_tool.
  - intros Hthrow Hn. unfold Inline.callToolHandler in Hthrow. rewrite Hn in Hthrow.
    cbn [String.eqb Ascii.eqb Bool.eqb negb] in Hthrow.
    repeat match type of Hthrow with
           | (if ?c then _ else _) = _ => destruct c
           end; discriminate.
Qed.

Lemma advertised_tools_are_routed_witness :
  @UrlOnly.callToolHandler Examples.posix Examples.url_server
    {| name := "list_models"; arguments := JObj [] |}
  = Throw (McpError MethodNotFound "Unknown tool: list_models").
Proof.
  apply (@advertised_tools_are_routed Examples.posix Examples.url_server
           Examples.inline_defaultConfig Examples.inline_server
           "black-forest-labs/FLUX.1-schnell-Free"
           {| name := "list_models"; arguments := JObj [] |}).
  simpl. intros [H0|[]]. discriminate.
Defined.

(** ** [handleRequest] *)
Module HttpFacts.
Import Js Effects Protocol Terms MoreTerms ObjFacts RunFacts ComposeFacts Http.

(** A dispatched handler decides the response; its events and final state
    are those of the request. *)
Lemma run_respond `{Runtime} {env : Env} (m : Prog JsVal) (st : State) :
  run env
    (try_catch
       (bind m (fun result =>
          Ret {| status := 200; response_headers := json_headers;
                 response_body := JSON_stringify_compact result |}))
       (fun error =>
          Ret {| status := 500; response_headers := json_headers;
                 response_body :=
                   JSON_stringify_compact (JObj [("error", JStr (message_of error))]) |}))
    st
  = let '(o, evs, st') := run env m st in (Returned (respond o), evs, st').
Proof.
  rewrite run_try_catch, run_bind. destruct (run env m st) as [[o evs] st'].
  destruct o as [result|error]; cbn [run respond]; rewrite app_nil_r; reflexivity.
Qed.

Lemma run_handleRequest_body `{Platform} `{Runtime} env st lt ct body :
  nullish body = false ->
  run env (handleRequest lt ct (inr body)) st =
    let '(o, evs, st') := run env (dispatched lt ct body) st in
    (Returned (respond o), evs, st').
Proof.
  intros Hbody. rewrite <- run_respond. unfold handleRequest, dispatched.
  destruct body; try discriminate; reflexivity.
Qed.

Lemma run_handleRequest_unreadable `{Platform} `{Runtime} env st lt ct json error :
  json = inl error
  \/ (json = inr JNull
      /\ error = OtherError "Cannot read properties of null (reading 'method')")
  \/ (json = inr JUndefined
      /\ error = OtherError "Cannot read properties of undefined (reading 'method')") ->
  run env (handleRequest lt ct json) st = (Returned (error_response error), [], st).
Proof.
  intros [->|[[-> ->]|[-> ->]]]; reflexivity.
Qed.


End HttpFacts.

Import Http HttpFacts.

(** [handleRequest] never throws: whatever the request holds and whatever
    the handlers do, it returns a response, with status 200 or 500 and the
    JSON content type. *)
Theorem handleRequest_always_responds `{Platform} `{Runtime}
    (listToolsHandler : Prog JsVal) (callToolHandler : Request -> Prog JsVal)
    (json : Exn + JsVal) (env : Env) (st : State) :
  exists response,
    outcome_of (run env (handleRequest listToolsHandler callToolHandler json) st)
      = Returned response
    /\ (status response = 200 \/ status response = 500)
    /\ response_headers response = [("Content-Type", "application/json")].
Proof.
  destruct json as [error|body].
  - rewrite (run_handleRequest_unreadable env st _ _ _ error) by (left; reflexivity).
    eexists. split; [reflexivity|]. split; [right|]; reflexivity.
  - destruct (nullish body) eqn:Hbody.
    + destruct body; try discriminate.
      * rewrite (run_handleRequest_unreadable env st _ _ _
                   (OtherError "Cannot read properties of undefined (reading 'method')"))
          by (right; right; split; reflexivity).
        eexists. split; [reflexivity|]. split; [right|]; reflexivity.
      * rewrite (run_handleRequest_unreadable env st _ _ _
                   (OtherError "Cannot read properties of null (reading 'method')"))
          by (right; left; split; reflexivity).
        eexists. split; [reflexivity|]. split; [right|]; reflexivity.
    + rewrite (run_handleRequest_body env st _ _ body Hbody).
      destruct (run env (dispatched _ _ body) st) as [[o evs] st'].
      eexists. split; [reflexivity|].
      destruct o; (split; [|reflexivity]); [left|right]; reflexivity.
Qed.

(** [handleRequest] routes on [method]: 'list_tools' runs the catalog
    handler, 'call_tool' runs the call handler on [params.name] and
    [params.arguments].  The response is 200 with the result when the handler
    returns and 500 with the message of the error when it throws; events
    and final state are those of the handler. *)
Theorem handleRequest_dispatch `{Platform} `{Runtime}
    (listToolsHandler : Prog JsVal) (callToolHandler : Request -> Prog JsVal)
    (body : JsVal) (env : Env) (st : State) :
  (get body "method" = JStr "list_tools" ->
   run env (handleRequest listToolsHandler callToolHandler (inr body)) st
   = let '(o, evs, st') := run env listToolsHandler st in
     (Returned (respond o), evs, st'))
  /\ (forall params tool,
        get body "method" = JStr "call_tool" ->
        get body "params" = params ->
        get params "name" = JStr tool ->
        run env (handleRequest listToolsHandler callToolHandler (inr body)) st
        = let '(o, evs, st') :=
            run env (callToolHandler
                       {| name := tool; arguments := get params "arguments" |}) st in
          (Returned (respond o), evs, st')).
Proof.
  split.
  - intros Hm.
    assert (Hbody : nullish body = false) by (destruct body; try reflexivity; discriminate).
    rewrite (run_handleRequest_body env st _ _ body Hbody).
    unfold dispatched. rewrite Hm. reflexivity.
  - intros params tool Hm Hp Hn.
    assert (Hbody : nullish body = false) by (destruct body; try reflexivity; discriminate).
    assert (Hparams : nullish params = false).
    { destruct params; try reflexivity; discriminate. }
    rewrite (run_handleRequest_body env st _ _ body Hbody).
    unfold dispatched, call. rewrite Hm. cbn [is_string String.eqb Ascii.eqb Bool.eqb].
    assert (Hr1 : read_property body "params" = Ret params).
    { rewrite <- Hp. destruct body; try reflexivity; discriminate. }
    assert (Hr2 : read_property params "name" = Ret (JStr tool)).
    { rewrite <- Hn. destruct params; try reflexivity; discriminate. }
    rewrite Hr1. cbn [bind]. rewrite Hr2. reflexivity.
Qed.

Lemma handleRequest_dispatch_witness :
  run (Examples.answering (inr (Examples.url_answer "https://img.example/1.png")))
    (@url_handleRequest Examples.posix sample_runtime Examples.url_server
       (inr (JObj [("method", JStr "call_tool");
                   ("params", JObj [("name", JStr "generate_image");
                                    ("arguments", JObj [("prompt", JStr "a fox")])])])))
    Examples.booted
  = let '(o, evs, st') :=
      run (Examples.answering (inr (Examples.url_answer "https://img.example/1.png")))
        (@UrlOnly.callToolHandler Examples.posix Examples.url_server
           (generate [("prompt", JStr "a fox")])) Examples.booted in
    (Returned (@respond sample_runtime o), evs, st').
Proof.
  apply (@handleRequest_dispatch Examples.posix sample_runtime
           (@UrlOnly.listToolsHandler Examples.posix Examples.url_server)
           (@UrlOnly.callToolHandler Examples.posix Examples.url_server)
           (JObj [("method", JStr "call_tool");
                  ("params", JObj [("name", JStr "generate_image");
                                   ("arguments", JObj [("prompt", JStr "a fox")])])])
           (Examples.answering (inr (Examples.url_answer "https://img.example/1.png")))
           Examples.booted)
    with (params := JObj [("name", JStr "generate_image");
                          ("arguments", JObj [("prompt", JStr "a fox")])]).
  - reflexivity.
  - reflexivity.
  - reflexivity.
Defined.

(** What [handleRequest] answers to a request it cannot route: a body that
    is not JSON, a [null] body, a method it does not know, a 'call_tool'
    without [params].  Each gets status 500 with the message of the error,
    and no handler runs: no event, no change of state. *)
Theorem handleRequest_unroutable `{Platform} `{Runtime}
    (listToolsHandler : Prog JsVal) (callToolHandler : Request -> Prog JsVal)
    (env : Env) (st : State) :
  (forall error,
     run env (handleRequest listToolsHandler callToolHandler (inl error)) st
     = (Returned (error_response error), [], st))
  /\ run env (handleRequest listToolsHandler callToolHandler (inr JNull)) st
     = (Returned (error_response
                    (OtherError "Cannot read properties of null (reading 'method')")),
        [], st)
  /\ (forall body text,
        nullish body = false ->
        is_string "list_tools" (get body "method") = false ->
        is_string "call_tool" (get body "method") = false ->
        ToString (get body "method") = Some text ->
        run env (handleRequest listToolsHandler callToolHandler (inr body)) st
        = (Returned (error_response (OtherError ("Unknown method: " ++ text))), [], st))
  /\ (forall body,
        get body "method" = JStr "call_tool" ->
        get body "params" = JUndefined ->
        run env (handleRequest listToolsHandler callToolHandler (inr body)) st
        = (Returned (error_response
                       (OtherError "Cannot read properties of undefined (reading 'name')")),
           [], st)).
Proof.
  split; [|split; [|split]].
  - intros error. apply run_handleRequest_unreadable. left. reflexivity.
  - apply run_handleRequest_unreadable. right. left. split; reflexivity.
  - intros body text Hbody Hl Hc Ht.
    rewrite (run_handleRequest_body env st _ _ body Hbody).
    unfold dispatched, template. rewrite Hl, Hc, Ht. reflexivity.
  - intros body Hm Hp.
    assert (Hbody : nullish body = false) by (destruct body; try reflexivity; discriminate).
    rewrite (run_handleRequest_body env st _ _ body Hbody).
    unfold dispatched, call. rewrite Hm. cbn [is_string String.eqb Ascii.eqb Bool.eqb].
    assert (Hr1 : read_property body "params" = Ret JUndefined).
    { rewrite <- Hp. destruct body; try reflexivity; discriminate. }
    rewrite Hr1. reflexivity.
Qed.

(** A body without [method]. *)
Lemma handleRequest_unroutable_witness :
  run (Examples.answering (inl (OtherError "unused")))
    (@url_handleRequest Examples.posix sample_runtime Examples.url_server
       (inr (JObj [("params", JObj [("name", JStr "generate_image")])])))
    Examples.booted
  = (Returned (@error_response sample_runtime (OtherError "Unknown method: undefined")),
     [], Examples.booted).
Proof.
  destruct (@handleRequest_unroutable Examples.posix sample_runtime
              (@UrlOnly.listToolsHandler Examples.posix Examples.url_server)
              (@UrlOnly.callToolHandler Examples.posix Examples.url_server)
              (Examples.answering (inl (OtherError "unused"))) Examples.booted)
    as (_ & _ & Hmethod & _).
  apply (Hmethod (JObj [("params", JObj [("name", JStr "generate_image")])]) "undefined");
    reflexivity.
Defined.



(** A 'call_tool' whose [params.name] is not a string (a number, [null], or
    nothing at all) is refused as an unknown tool, named the way a template
    literal prints the value; the call handler proper is never entered and
    no request is sent. *)
Theorem call_without_tool_name `{Platform} `{Runtime}
    (listToolsHandler : Prog JsVal) (callToolHandler : Request -> Prog JsVal)
    (env : Env) (st : State) (body params tool : JsVal) :
  get body "method" = JStr "call_tool" ->
  get body "params" = params ->
  nullish params = false ->
  get params "name" = tool ->
  (forall s, tool <> JStr s) ->
  run env (handleRequest listToolsHandler callToolHandler (inr body)) st
  = (Returned
       (error_response
          match ToString tool with
          | Some text => McpError MethodNotFound ("Unknown tool: " ++ text)
          | None => OtherError "Cannot convert object to primitive value"
          end), [], st).
Proof.
  intros Hm Hp Hparams Hn Hnot.
  assert (Hbody : nullish body = false) by (destruct body; try reflexivity; discriminate).
  rewrite (run_handleRequest_body env st _ _ body Hbody).
  unfold dispatched, call. rewrite Hm. cbn [is_string String.eqb Ascii.eqb Bool.eqb].
  assert (Hr1 : read_property body "params" = Ret params).
  { rewrite <- Hp. destruct body; try reflexivity; discriminate. }
  assert (Hr2 : read_property params "name" = Ret tool).
  { rewrite <- Hn. destruct params; try reflexivity; discriminate. }
  rewrite Hr1. cbn [bind]. rewrite Hr2. cbn [bind].
  destruct tool as [| |b|x|s|xs|o]; try (exfalso; apply (Hnot s); reflexivity);
    unfold template; destruct (ToString _); reflexivity.
Qed.

(** No [name] at all. *)
Lemma call_without_tool_name_witness :
  run (Examples.answering (inl (OtherError "unused")))
    (@url_handleRequest Examples.posix sample_runtime Examples.url_server
       (inr (JObj [("method", JStr "call_tool");
                   ("params", JObj [("arguments", JObj [("prompt", JStr "a fox")])])])))
    Examples.booted
  = (Returned (@error_response sample_runtime
                 (McpError MethodNotFound "Unknown tool: undefined")),
     [], Examples.booted).
Proof.
  apply (@call_without_tool_name Examples.posix sample_runtime
           (@UrlOnly.listToolsHandler Examples.posix Examples.url_server)
           (@UrlOnly.callToolHandler Examples.posix Examples.url_server)
           (Examples.answering (inl (OtherError "unused"))) Examples.booted
           (JObj [("method", JStr "call_tool");
                  ("params", JObj [("arguments", JObj [("prompt", JStr "a fox")])])])
           (JObj [("arguments", JObj [("prompt", JStr "a fox")])])
           JUndefined).
  - reflexivity.
  - reflexivity.
  - reflexivity.
  - reflexivity.
  - discriminate.
Defined.
